(** * portfolio-returns: cashflow extraction and XIRR

    A shallow embedding of [cashflows.py] and of the solver entry points of
    [irr.py], with the properties of the cashflow extraction stated and
    proved over it.

    Conventions of the embedding.
    - A Python call that may raise is a computation in the [result] monad;
      the exception, when there is one, is the value returned.
    - [datetime.date] is its proleptic Gregorian ordinal, an integer between
      [date_min] and [date_max]; [Optional[date]] is [option date].
    - [Decimal] is the exact rational it denotes.  The arithmetic of the
      default decimal context rounds to 28 significant digits; a ledger whose
      amounts stay below that size is not affected, and the rounding of the
      context is not part of the model.
    - A Python [dict] is an association list with unique keys, in insertion
      order ([Dict]).
    - The libraries the program calls (the [re] engine, beancount's
      realization and conversion functions, Python's float arithmetic and
      scipy's root finder) are interfaces: a type class each, with one
      executable instance used to run the program on concrete ledgers. *)

From Stdlib Require Import List String Ascii Bool ZArith QArith Lia Sorted.
From Stdlib Require Import Floats.PrimFloat Uint63.
Import ListNotations.

Set Implicit Arguments.
Set Warnings "-inexact-float".
Local Open Scope string_scope.
Local Open Scope Z_scope.

(** ** Exceptions and the error monad *)

Inductive exn : Type :=
| NameError (name : string)
| AssertionError
| KeyError (key : string)
| AttributeError
| IndexError
| OverflowError
| ZeroDivisionError
| RuntimeError.

Inductive result (A : Type) : Type :=
| Ok (a : A)
| Raise (e : exn).

Arguments Ok {A} a.
Arguments Raise {A} e.

Definition bind {A B : Type} (m : result A) (k : A -> result B) : result B :=
  match m with
  | Ok a => k a
  | Raise e => Raise e
  end.

Notation "x <- m ;; k" := (bind m (fun x => k))
  (at level 61, m at next level, right associativity).

(** A [for] loop whose body may raise: the first exception ends the loop. *)
Fixpoint for_each {A S : Type} (body : S -> A -> result S) (xs : list A) (s : S)
  : result S :=
  match xs with
  | [] => Ok s
  | x :: xs' => s' <- body s x ;; for_each body xs' s'
  end.

(** ** Dictionaries in insertion order *)

Module Dict.
Section WithValue.
Context {V : Type}.

Definition t := list (string * V).

Definition empty : t := [].

Fixpoint lookup (k : string) (d : t) : option V :=
  match d with
  | [] => None
  | (k', v) :: d' => if String.eqb k k' then Some v else lookup k d'
  end.

  (** [d[k] = v]: an existing key keeps its place, a new key goes last. *)
Fixpoint set (k : string) (v : V) (d : t) : t :=
  match d with
  | [] => [(k, v)]
  | (k', v') :: d' =>
      if String.eqb k k' then (k, v) :: d' else (k', v') :: set k v d'
  end.

  (** [d[k]] on a [defaultdict] whose factory yields [default], followed by
      the mutation [f] of the value found or created there. *)
Definition update (default : V) (f : V -> V) (k : string) (d : t) : t :=
  set k (f (match lookup k d with Some v => v | None => default end)) d.

Definition keys (d : t) : list string := map fst d.

Definition mem (k : string) (d : t) : bool :=
  match lookup k d with Some _ => true | None => false end.

Definition wf (d : t) : Prop := NoDup (keys d).
End WithValue.
Arguments t : clear implicits.
End Dict.

(** The list held at a key, empty when the key is absent. *)
Definition get_list {A : Type} (d : Dict.t (list A)) (k : string) : list A :=
  match Dict.lookup k d with Some l => l | None => [] end.

(** ** Decimal numbers, dates, amounts *)

Abbreviation Decimal := Q.

(** Rounding to the nearest integer, ties to even ([ROUND_HALF_EVEN], the
    rounding of the default decimal context). *)
Definition round_half_even (x : Q) : Z :=
  let n := Qnum x in
  let d := Zpos (Qden x) in
  let q := n / d in
  let r := n mod d in
  match 2 * r ?= d with
  | Lt => q
  | Gt => q + 1
  | Eq => if Z.even q then q else q + 1
  end.

(** [x.quantize(Decimal('.01'))] *)
Definition quantize_hundredths (x : Decimal) : Decimal :=
  (round_half_even (x * 100) # 100)%Q.

(** [x != 0] and [x > 0] on decimals. *)
Definition nonzero (x : Decimal) : bool := negb (Qeq_bool x 0).
Definition positive (x : Decimal) : bool := negb (Qle_bool x 0).

Definition date := Z.
Definition date_min : date := 1.
Definition date_max : date := 3652059.

(** [d + relativedelta(days=1)]; the day after [date.max] does not exist. *)
Definition plus_one_day (d : date) : result date :=
  if d <? date_max then Ok (d + 1) else Raise OverflowError.

Definition Account := string.
Definition Currency := string.

Record Amount : Type := mkAmount { number : Decimal; currency : Currency }.

(** ** Account names (beancount.core.account) *)

Definition sep : ascii := ":"%char.

(** [name.split(sep)] *)
Fixpoint split_sep (s : string) : list string :=
  match s with
  | EmptyString => [EmptyString]
  | String c s' =>
      if Ascii.eqb c sep then EmptyString :: split_sep s'
      else match split_sep s' with
           | x :: xs => String c x :: xs
           | [] => [String c EmptyString]
           end
  end.

(** [sep.join(components)] *)
Fixpoint join_sep (components : list string) : string :=
  match components with
  | [] => EmptyString
  | [x] => x
  | x :: xs => x ++ String sep (join_sep xs)
  end.

(** [account.parent]: the name without its last component; [None] for the
    empty name. *)
Definition parent (account_name : string) : option string :=
  match account_name with
  | EmptyString => None
  | _ => Some (join_sep (removelast (split_sep account_name)))
  end.

(** [account.parents]: the loop
    [while account_name: yield account_name; account_name = parent(account_name)],
    run for at most [fuel] rounds. *)
Fixpoint parents_loop (fuel : nat) (account_name : string) : list string :=
  match fuel with
  | O => []
  | S fuel' =>
      match account_name with
      | EmptyString => []
      | _ => account_name ::
             match parent account_name with
             | Some p => parents_loop fuel' p
             | None => []
             end
      end
  end.

(** Every round shortens the name, so its length is fuel enough
    ([parents_unfold] below). *)
Definition parents (account_name : string) : list string :=
  parents_loop (String.length account_name) account_name.

(** [a in parents(b)] *)
Definition in_parents (a b : string) : bool :=
  existsb (String.eqb a) (parents b).

(** ** The [re] engine, as far as the program uses it

    Patterns and replacement templates are taken to be well formed: the
    [re.error] of a malformed one is not modelled. *)

Class RegexEngine : Type := {
  Pattern : Type;
  (** [re.compile(pattern)] *)
  re_compile : string -> Pattern;
  (** [pattern.subn(replacement, text)]: the text after substitution and the
      number of substitutions made. *)
  subn : Pattern -> string -> string -> string * nat
}.

(** An engine for patterns and replacement templates without
    metacharacters: the pattern is a literal and [subn] replaces its
    non-overlapping occurrences from left to right, wherever they are.  An
    empty pattern matches once before every character and once at the end. *)
Module Literal.
Fixpoint starts_with (p s : string) : bool :=
  match p, s with
  | EmptyString, _ => true
  | String a p', String b s' => Ascii.eqb a b && starts_with p' s'
  | String _ _, EmptyString => false
  end.

  (** [skip] is the number of characters of the current match still to be
      consumed. *)
Fixpoint subn_from (p repl : string) (skip : nat) (s : string) : string * nat :=
  match s with
  | EmptyString =>
      match skip, p with
      | O, EmptyString => (repl, 1%nat)
      | _, _ => (EmptyString, O)
      end
  | String c s' =>
      match skip with
      | S k => subn_from p repl k s'
      | O =>
          if starts_with p s then
            match p with
            | EmptyString =>
                let '(r, n) := subn_from p repl O s' in
                (repl ++ String c r, S n)
            | String _ p' =>
                let '(r, n) := subn_from p repl (String.length p') s' in
                (repl ++ r, S n)
            end
          else
            let '(r, n) := subn_from p repl O s' in (String c r, n)
      end
  end.

Definition subn (p repl s : string) : string * nat := subn_from p repl O s.

  (** [pattern.match(text) is not None]: a match at the beginning. *)
Definition matches_at_start (p s : string) : bool := starts_with p s.
End Literal.

#[export] Instance literal_engine : RegexEngine := {|
  Pattern := string;
  re_compile := fun p => p;
  subn := Literal.subn
|}.

(** ** cashflows.py: [get_asset_account] and [get_number] *)

Section AccountMapper.
Context {RE : RegexEngine}.

Fixpoint get_asset_account (account : Account)
         (asset_account_map : list (Pattern * string)) : option Account :=
  match asset_account_map with
  | [] => None
  | (pattern, replacement) :: rest =>
      let '(asset_account, num_matches) := subn pattern replacement account in
      if (0 <? num_matches)%nat then Some asset_account
      else get_asset_account account rest
  end.

  (** [dict([(re.compile(pattern), replacement) for ...])] *)
Definition compile_map (asset_account_map : list (string * string))
  : list (Pattern * string) :=
  List.map (fun '(pattern, replacement) => (re_compile pattern, replacement))
           asset_account_map.
End AccountMapper.

(** The rule substitutes nowhere in the account name. *)
Definition no_match {RE : RegexEngine} (account : Account)
           (rule : Pattern * string) : Prop :=
  snd (subn (fst rule) (snd rule) account) = 0%nat.

(** Names visible from the body of [get_number]: its parameters, then the
    names bound at the top level of cashflows.py, then the builtins. *)
Definition get_number_locals : list string := ["amount"; "currency"].

Definition module_globals : list string :=
  ["datetime"; "logging"; "re"; "dataclasses"; "collections"; "relativedelta";
   "Decimal"; "List"; "Optional"; "Set"; "beancount"; "Account"; "Amount";
   "Currency"; "Transaction"; "PriceMap"; "Cashflow"; "get_asset_account";
   "get_number"; "get_market_values_by_asset_account";
   "get_cashflows_by_asset_account"; "get_cashflows"; "__name__"; "__doc__";
   "__package__"; "__loader__"; "__spec__"; "__file__"; "__builtins__"].

Definition builtins : list string :=
  ["abs"; "aiter"; "all"; "anext"; "any"; "ascii"; "bin"; "bool"; "breakpoint";
   "bytearray"; "bytes"; "callable"; "chr"; "classmethod"; "compile"; "complex";
   "delattr"; "dict"; "dir"; "divmod"; "enumerate"; "eval"; "exec"; "filter";
   "float"; "format"; "frozenset"; "getattr"; "globals"; "hasattr"; "hash";
   "help"; "hex"; "id"; "input"; "int"; "isinstance"; "issubclass"; "iter";
   "len"; "list"; "locals"; "map"; "max"; "memoryview"; "min"; "next"; "object";
   "oct"; "open"; "ord"; "pow"; "print"; "property"; "range"; "repr";
   "reversed"; "round"; "set"; "setattr"; "slice"; "sorted"; "staticmethod";
   "str"; "sum"; "super"; "tuple"; "type"; "vars"; "zip"].

Definition bound_in (scope : list string) (name : string) : bool :=
  existsb (String.eqb name) scope.

(** Evaluating names in order: the first unbound one raises [NameError]. *)
Fixpoint eval_names (scope names : list string) : result unit :=
  match names with
  | [] => Ok tt
  | n :: rest =>
      if bound_in scope n then eval_names scope rest else Raise (NameError n)
  end.

(** The names read, left to right, by the message
    [f'Could not convert posting {converted} from ' +
     f'{entry.date} on line {posting.meta["lineno"]} to {currency}.'] *)
Definition message_names : list string :=
  ["converted"; "entry"; "posting"; "currency"].

Definition get_number (amount : Amount) (currency' : Currency) : result Decimal :=
  if negb (String.eqb (currency amount) currency') then
    _ <- eval_names (get_number_locals ++ module_globals ++ builtins)
                    message_names ;;
    Raise AssertionError
  else Ok (number amount).

(** ** Ledger entries, cashflows and the beancount interface *)

Record Transaction (P : Type) : Type := mkTransaction {
  t_date : date;
  t_postings : list P
}.

(** A ledger entry is a transaction or some other dated directive. *)
Inductive Entry (P D : Type) : Type :=
| Txn (t : Transaction P)
| Directive (d : date) (body : D).

Arguments Directive {P D} d body.
Arguments Txn {P D} t.

Definition entry_date {P D : Type} (e : Entry P D) : date :=
  match e with
  | Txn t => t_date t
  | Directive d _ => d
  end.

(** [beancount.core.data.filter_txns] *)
Fixpoint filter_txns {P D : Type} (entries : list (Entry P D))
  : list (Transaction P) :=
  match entries with
  | [] => []
  | Txn t :: rest => t :: filter_txns rest
  | Directive _ _ :: rest => filter_txns rest
  end.

Record Position : Type := mkPosition { units : Amount; cost : option Amount }.

Definition Inventory := list Position.

Definition is_empty (inv : Inventory) : bool :=
  match inv with [] => true | _ :: _ => false end.

(** [Inventory.get_only_position]: [None] when empty, an assertion failure
    when there are several positions. *)
Definition get_only_position (inv : Inventory) : result (option Position) :=
  match inv with
  | [] => Ok None
  | [p] => Ok (Some p)
  | _ :: _ :: _ => Raise AssertionError
  end.

Inductive Kind : Type := txn | starting_balance | ending_balance.

Record Cashflow (P : Type) : Type := mkCashflow {
  cf_date : option date;
  amount : Decimal;
  kind : Kind;
  inflow_accounts : list Account;
  outflow_accounts : list Account;
  entry : option (Transaction P)
}.

(** [set.add] on a set of account names kept as a duplicate-free list. *)
Definition set_add (a : Account) (s : list Account) : list Account :=
  if existsb (String.eqb a) s then s else (s ++ [a])%list.

(** The functions of beancount that cashflows.py calls. *)
Class Beancount : Type := {
  Posting : Type;
  DirectiveBody : Type;
  posting_account : Posting -> Account;
  (** [beancount.core.convert.get_weight] *)
  get_weight : Posting -> Amount;
  PriceMap : Type;
  (** [beancount.core.prices.build_price_map] *)
  build_price_map : list (Entry Posting DirectiveBody) -> PriceMap;
  (** [beancount.core.convert.convert_amount] *)
  convert_amount : Amount -> Currency -> PriceMap -> date -> Amount;
  RealAccount : Type;
  real_account_name : RealAccount -> Account;
  (** [beancount.core.realization.realize] and [iter_children] *)
  realize : list (Entry Posting DirectiveBody) -> RealAccount;
  iter_children : RealAccount -> list RealAccount;
  (** [is_account_type(DEFAULT_ACCOUNT_TYPES.assets, account)] *)
  is_assets_account : Account -> bool;
  (** [beancount.core.realization.compute_balance] *)
  compute_balance : RealAccount -> Inventory;
  (** [inventory.reduce(convert_position, currency, price_map)] *)
  reduce_convert_position : Inventory -> Currency -> PriceMap -> Inventory
}.

Abbreviation entry_t := (Entry Posting DirectiveBody).
Abbreviation txn_t := (Transaction Posting).
Abbreviation cashflow_t := (Cashflow Posting).

(** ** cashflows.py: the extraction *)

Section Extraction.
Context {RE : RegexEngine} {BC : Beancount}.


Definition add_market_value (market_value : Decimal) (v : Decimal) : Decimal :=
  (v + market_value)%Q.

Definition market_value_step
           (asset_account_map : list (Pattern * string))
           (price_map : PriceMap) (currency' : Currency)
           (market_value_by_asset_account : Dict.t Decimal)
           (real_account : RealAccount) : result (Dict.t Decimal) :=
  if negb (is_assets_account (real_account_name real_account)) then
    Ok market_value_by_asset_account
  else
    match get_asset_account (real_account_name real_account)
                            asset_account_map with
    | None => Ok market_value_by_asset_account
    | Some balance_asset_account =>
        let inventory := compute_balance real_account in
        let market_value_inventory :=
          reduce_convert_position inventory currency' price_map in
        if is_empty market_value_inventory then
          Ok market_value_by_asset_account
        else
          only <- get_only_position market_value_inventory ;;
          match only with
          | None => Raise AttributeError
          | Some position =>
              market_value <- get_number (units position) currency' ;;
              Ok (Dict.update 0%Q (add_market_value market_value)
                              balance_asset_account
                              market_value_by_asset_account)
          end
    end.

  (** The entries realized for a valuation at the beginning of [date']. *)
Definition entries_before (date' : option date) (entries : list entry_t)
  : list entry_t :=
  match date' with
  | None => entries
  | Some d => filter (fun e => entry_date e <? d) entries
  end.

Definition get_market_values_by_asset_account
           (entries : list entry_t)
           (asset_account_map : list (Pattern * string))
           (date' : option date) (price_map : PriceMap)
           (currency' : Currency) : result (Dict.t Decimal) :=
  let realized := realize (entries_before date' entries) in
  for_each (market_value_step asset_account_map price_map currency')
           (iter_children realized) Dict.empty.

  (** The factory of [pending_cashflow_by_asset_account]. *)
Definition new_cashflow (entry' : txn_t) : cashflow_t :=
  {| cf_date := Some (t_date entry'); amount := 0%Q; kind := txn;
     inflow_accounts := []; outflow_accounts := []; entry := Some entry' |}.

Definition add_amount (value : Decimal) (c : cashflow_t) : cashflow_t :=
  {| cf_date := cf_date c; amount := (amount c + value)%Q; kind := kind c;
     inflow_accounts := inflow_accounts c;
     outflow_accounts := outflow_accounts c; entry := entry c |}.

Definition add_outflow (a : Account) (c : cashflow_t) : cashflow_t :=
  {| cf_date := cf_date c; amount := amount c; kind := kind c;
     inflow_accounts := inflow_accounts c;
     outflow_accounts := set_add a (outflow_accounts c); entry := entry c |}.

Definition add_inflow (a : Account) (c : cashflow_t) : cashflow_t :=
  {| cf_date := cf_date c; amount := amount c; kind := kind c;
     inflow_accounts := set_add a (inflow_accounts c);
     outflow_accounts := outflow_accounts c; entry := entry c |}.

Section OneCall.
Variable asset_account_map : list (Pattern * string).
Variable price_map : PriceMap.
Variable currency' : Currency.

    (** The value of a posting in [currency'], at the date of its entry. *)
Definition posting_value (entry' : txn_t) (posting : Posting)
  : result Decimal :=
  get_number (convert_amount (get_weight posting) currency' price_map
                             (t_date entry')) currency'.

    (** [pending_cashflow_by_asset_account[a].amount += value] *)
Definition add_to_pending (entry' : txn_t) (value : Decimal)
           (pending : Dict.t cashflow_t) (a : Account)
  : Dict.t cashflow_t :=
  Dict.update (new_cashflow entry') (add_amount value) a pending.

    (** The body of the first loop over the postings of an entry. *)
Definition accumulate_posting (entry' : txn_t)
           (pending : Dict.t cashflow_t) (posting : Posting)
  : result (Dict.t cashflow_t) :=
  value <- posting_value entry' posting ;;
  match get_asset_account (posting_account posting) asset_account_map with
  | None => Ok pending
  | Some asset_account =>
      Ok (fold_left (add_to_pending entry' value) (parents asset_account)
                    pending)
  end.

Definition pending_cashflows (entry' : txn_t)
  : result (Dict.t cashflow_t) :=
  for_each (accumulate_posting entry') (t_postings entry') Dict.empty.

    (** Does the posting lie outside the bucket [asset_account]? *)
Definition outside_bucket (asset_account : Account) (posting : Posting)
  : bool :=
  match get_asset_account (posting_account posting) asset_account_map with
  | None => true
  | Some posting_asset_account =>
      negb (in_parents asset_account posting_asset_account)
  end.

    (** The body of the second loop over the postings: the accounts on the
        other side of the flow are recorded on the cashflow. *)
Definition classify_posting (asset_account : Account)
           (cashflow : cashflow_t) (posting : Posting) : cashflow_t :=
  if outside_bucket asset_account posting then
    if positive (number (get_weight posting))
    then add_outflow (posting_account posting) cashflow
    else add_inflow (posting_account posting) cashflow
  else cashflow.

    (** The body of the loop over the pending cashflows of an entry. *)
Definition emit_pending (entry' : txn_t)
           (cashflows_by_asset_account : Dict.t (list cashflow_t))
           (item : Account * cashflow_t) : Dict.t (list cashflow_t) :=
  let '(asset_account, cashflow) := item in
  if nonzero (quantize_hundredths (amount cashflow)) then
    let cashflow' :=
      fold_left (classify_posting asset_account) (t_postings entry')
                cashflow in
    Dict.update [] (fun l => (l ++ [cashflow'])%list) asset_account
                cashflows_by_asset_account
  else cashflows_by_asset_account.

Definition in_window (start_date_inclusive end_date_inclusive : option date)
           (d : date) : bool :=
  match start_date_inclusive with
  | Some s => s <=? d
  | None => true
  end &&
  match end_date_inclusive with
  | Some e => d <=? e
  | None => true
  end.

    (** The body of the loop over the transactions. *)
Definition extract_entry
           (start_date_inclusive end_date_inclusive : option date)
           (cashflows_by_asset_account : Dict.t (list cashflow_t))
           (entry' : txn_t) : result (Dict.t (list cashflow_t)) :=
  if negb (in_window start_date_inclusive end_date_inclusive
                     (t_date entry'))
  then Ok cashflows_by_asset_account
  else
    pending <- pending_cashflows entry' ;;
    Ok (fold_left (emit_pending entry') pending
                  cashflows_by_asset_account).

Definition starting_cashflow (start_date_inclusive : date)
           (market_value : Decimal) : cashflow_t :=
  {| cf_date := Some start_date_inclusive; amount := market_value;
     kind := starting_balance; inflow_accounts := [];
     outflow_accounts := []; entry := None |}.

Definition ending_cashflow (end_date_inclusive : option date)
           (market_value : Decimal) : cashflow_t :=
  {| cf_date := end_date_inclusive; amount := (- market_value)%Q;
     kind := ending_balance; inflow_accounts := [];
     outflow_accounts := []; entry := None |}.

    (** [cashflows_by_asset_account[asset_account].insert(0, cashflow)] *)
Definition insert_starting (start_date_inclusive : date)
           (cashflows_by_asset_account : Dict.t (list cashflow_t))
           (item : Account * Decimal) : Dict.t (list cashflow_t) :=
  let '(asset_account, market_value) := item in
  Dict.update []
    (fun l => starting_cashflow start_date_inclusive market_value :: l)
    asset_account cashflows_by_asset_account.

    (** [cashflows_by_asset_account[asset_account].append(cashflow)] *)
Definition append_ending (end_date_inclusive : option date)
           (cashflows_by_asset_account : Dict.t (list cashflow_t))
           (item : Account * Decimal) : Dict.t (list cashflow_t) :=
  let '(asset_account, market_value) := item in
  Dict.update []
    (fun l => (l ++ [ending_cashflow end_date_inclusive market_value])%list)
    asset_account cashflows_by_asset_account.

    (** The cutoff of the ending valuation: the day after the window. *)
Definition ending_cutoff (end_date_inclusive : option date)
  : result (option date) :=
  match end_date_inclusive with
  | Some e => d <- plus_one_day e ;; Ok (Some d)
  | None => Ok None
  end.
End OneCall.

Definition get_cashflows_by_asset_account
           (entries : list entry_t)
           (asset_account_map : list (string * string))
           (start_date_inclusive end_date_inclusive : option date)
           (currency' : Currency) : result (Dict.t (list cashflow_t)) :=
  let asset_account_map := compile_map asset_account_map in
  let price_map := build_price_map entries in
  let only_txns := filter_txns entries in
  cashflows <-
    for_each (extract_entry asset_account_map price_map currency'
                            start_date_inclusive end_date_inclusive)
             only_txns Dict.empty ;;
  cashflows <-
    match start_date_inclusive with
    | Some s =>
        market_value_by_asset_account <-
          get_market_values_by_asset_account
            entries asset_account_map (Some s) price_map currency' ;;
        Ok (fold_left (insert_starting s) market_value_by_asset_account
                      cashflows)
    | None => Ok cashflows
    end ;;
  cutoff <- ending_cutoff end_date_inclusive ;;
  market_value_by_asset_account <-
    get_market_values_by_asset_account
      entries asset_account_map cutoff price_map currency' ;;
  Ok (fold_left (append_ending end_date_inclusive)
                market_value_by_asset_account cashflows).

Definition placeholder_asset_account : Account :=
  "Assets:_AssetAccountForCashflows".

  (** [dict((pattern, placeholder) for pattern in patterns)]: a pattern
      listed twice keeps its first place. *)
Definition placeholder_map (patterns : list string) : list (string * string) :=
  fold_left (fun d pattern => Dict.set pattern placeholder_asset_account d)
            patterns Dict.empty.

Definition get_cashflows
           (entries : list entry_t)
           (interesting_accounts internal_accounts : list string)
           (date_from : option date) (date_to : option date)
           (currency' : Currency) : result (list cashflow_t) :=
  let asset_account_map :=
    placeholder_map (interesting_accounts ++ internal_accounts) in
  by_asset_account <-
    get_cashflows_by_asset_account entries asset_account_map
                                   date_from date_to currency' ;;
  match Dict.lookup placeholder_asset_account by_asset_account with
  | Some cashflows => Ok cashflows
  | None => Raise (KeyError placeholder_asset_account)
  end.
End Extraction.

(** ** A ledger without costs and prices

    An executable instance of the beancount interface for ledgers whose
    postings carry plain units: the weight of a posting is its units, no
    price is known, so that [convert_amount] returns its argument, and the
    balance of an account is the sum, per currency, of the units posted to
    it and to the accounts below it.  The accounts of a realization are
    listed parents first, in the order in which the ledger mentions them. *)
Module Plain.

Record posting : Type := mkPosting { account : Account; p_units : Amount }.

Definition entry_t := Entry posting unit.

Definition all_postings (entries : list entry_t) : list posting :=
  flat_map (fun t => t_postings t) (filter_txns entries).

Fixpoint add_name (a : Account) (names : list Account) : list Account :=
  match names with
  | [] => [a]
  | b :: rest => if String.eqb a b then names else b :: add_name a rest
  end.

Definition account_names (entries : list entry_t) : list Account :=
  fold_left (fun names p => fold_left (fun ns a => add_name a ns)
                                      (rev (parents (account p))) names)
            (all_postings entries) [EmptyString].

(** Adding units to an inventory; a position that becomes zero goes away. *)
Fixpoint inv_add (inv : Inventory) (u : Amount) : Inventory :=
  match inv with
  | [] => if Qeq_bool (number u) 0 then [] else [mkPosition u None]
  | pos :: rest =>
      if String.eqb (currency (units pos)) (currency u) then
        let total := (number (units pos) + number u)%Q in
        if Qeq_bool total 0 then rest
        else mkPosition (mkAmount total (currency u)) None :: rest
      else pos :: inv_add rest u
  end.

(** Is [a] the account [b] or one above it?  The root is above all. *)
Definition covers (a b : Account) : bool :=
  match a with
  | EmptyString => true
  | _ => in_parents a b
  end.

Record real_account : Type := mkReal {
  ra_name : Account;
  ra_entries : list entry_t
}.

Definition balance (ra : real_account) : Inventory :=
  fold_left (fun inv p => if covers (ra_name ra) (account p)
                          then inv_add inv (p_units p) else inv)
            (all_postings (ra_entries ra)) [].

Definition is_assets (a : Account) : bool :=
  Literal.starts_with "Assets:" a.

End Plain.

#[export] Instance plain_ledger : Beancount := {|
  Posting := Plain.posting;
  DirectiveBody := unit;
  posting_account := Plain.account;
  get_weight := Plain.p_units;
  PriceMap := unit;
  build_price_map := fun _ => tt;
  convert_amount := fun amt _ _ _ => amt;
  RealAccount := Plain.real_account;
  real_account_name := Plain.ra_name;
  realize := fun entries => Plain.mkReal EmptyString entries;
  iter_children := fun root =>
    List.map (fun a => Plain.mkReal a (Plain.ra_entries root))
             (Plain.account_names (Plain.ra_entries root));
  is_assets_account := Plain.is_assets;
  compute_balance := Plain.balance;
  reduce_convert_position := fun inv _ _ =>
    fold_left (fun acc pos => Plain.inv_add acc (units pos)) inv []
|}.

(** ** irr.py: [xnpv] and [xirr] *)

Inductive ArithError : Type := Overflow | ZeroDivision.

Definition arith_exn (e : ArithError) : exn :=
  match e with
  | Overflow => OverflowError
  | ZeroDivision => ZeroDivisionError
  end.

(** The outcome of an arithmetic operation: a number, or one of the two
    errors Python's arithmetic raises. *)
Definition lift {A : Type} (x : ArithError + A) : result A :=
  match x with
  | inr a => Ok a
  | inl e => Raise (arith_exn e)
  end.

(** The numbers [xnpv] computes with. *)
Class PyNumber : Type := {
  num : Type;
  (** the number an integer literal denotes *)
  of_int : Z -> num;
  (** [days / 365.0] *)
  year_fraction : Z -> num;
  add : num -> num -> num;
  truediv : num -> num -> ArithError + num;
  pow : num -> num -> ArithError + num
}.

(** [scipy.optimize.newton(func, x0)] *)
Class RootFinder (PN : PyNumber) : Type := {
  newton : (num -> result num) -> num -> result num
}.

(** A root finder calls its function: when the function raises the same
    exception wherever it is called, the call of the root finder raises it. *)
Definition evaluates_its_function {PN : PyNumber} (RF : RootFinder PN) : Prop :=
  forall (func : num -> result num) (x0 : num) (e : exn),
    (forall r, func r = Raise e) -> newton func x0 = Raise e.

(** [sorted(cashflows, key=lambda x: x[0])]: a stable sort on the dates. *)
Fixpoint insert_by_date {A : Type} (x : date * A) (l : list (date * A))
  : list (date * A) :=
  match l with
  | [] => [x]
  | y :: l' => if fst x <=? fst y then x :: y :: l' else y :: insert_by_date x l'
  end.

Definition sorted_by_date {A : Type} (l : list (date * A)) : list (date * A) :=
  fold_right insert_by_date [] l.

(** A list comprehension whose element expression may raise. *)
Fixpoint map_result {A B : Type} (f : A -> result B) (l : list A)
  : result (list B) :=
  match l with
  | [] => Ok []
  | x :: l' => y <- f x ;; ys <- map_result f l' ;; Ok (y :: ys)
  end.

Section ReturnSolver.
Context {PN : PyNumber} {RF : RootFinder PN}.

(** [cf/(1+rate)**((t-t0).days/365.0)] *)
Definition discounted (rate : num) (t0 : date) (c : date * num) : result num :=
  let '(t, cf) := c in
  b <- lift (pow (add (of_int 1) rate) (year_fraction (t - t0))) ;;
  lift (truediv cf b).

Definition xnpv (rate : num) (cashflows : list (date * num)) : result num :=
  let chron_order := sorted_by_date cashflows in
  match chron_order with
  | [] => Raise IndexError
  | (t0, _) :: _ =>
      terms <- map_result (discounted rate t0) chron_order ;;
      Ok (fold_left add terms (of_int 0))
  end.

Definition xirr (cashflows : list (date * num)) (guess : num) : result num :=
  newton (fun r => xnpv r cashflows) guess.

End ReturnSolver.

(** ** Python floats and the secant iteration

    An executable instance of the two interfaces above: binary64 floats
    with Python's division (a zero divisor raises), a power that is one for
    a zero exponent and is otherwise left to the C library's [pow], a
    parameter, and the secant branch of [scipy.optimize.newton] with its
    default tolerance and iteration budget. *)
Module Binary64.

(** [float(n)], for the integers a ledger gives rise to (day counts, far
    below 2^63). *)
Definition of_Z (z : Z) : float :=
  match z with
  | Zneg p => PrimFloat.opp (PrimFloat.of_uint63 (Uint63.of_Z (Zpos p)))
  | _ => PrimFloat.of_uint63 (Uint63.of_Z z)
  end.

Definition is_zero (x : float) : bool := PrimFloat.eqb x 0%float.

Definition div (a b : float) : ArithError + float :=
  if is_zero b then inl ZeroDivision else inr (PrimFloat.div a b).

Definition power (libm_pow : float -> float -> ArithError + float)
           (b e : float) : ArithError + float :=
  if is_zero e then inr 1%float else libm_pow b e.

Definition eps : float := 1e-4%float.
Definition tol : float := 1.48e-8%float.
Definition maxiter : nat := 50.

(** [np.isclose(p, p1, rtol=0.0, atol=tol)] *)
Definition isclose (p p1 : float) : bool :=
  PrimFloat.leb (PrimFloat.abs (PrimFloat.sub p p1)) tol.

(** [(-a / b * pa + pb) / (1 - a / b)] *)
Definition secant_step (a b pa pb : float) : result float :=
  ratio <- lift (div a b) ;;
  lift (div (PrimFloat.add (PrimFloat.mul (PrimFloat.opp ratio) pa) pb)
            (PrimFloat.sub 1%float ratio)).

Fixpoint secant_loop (func : float -> result float) (n : nat)
         (p0 p1 q0 q1 : float) : result float :=
  match n with
  | O => Raise RuntimeError
  | S n' =>
      if PrimFloat.eqb q1 q0 then
        (* with [disp] set, both the warning path and the [break] end in
           the same exception *)
        Raise RuntimeError
      else
        p <- (if PrimFloat.ltb (PrimFloat.abs q0) (PrimFloat.abs q1)
              then secant_step q0 q1 p1 p0
              else secant_step q1 q0 p0 p1) ;;
        if isclose p p1 then Ok p
        else q <- func p ;; secant_loop func n' p1 p q1 q
  end.

Definition secant (func : float -> result float) (x0 : float) : result float :=
  let p0 := PrimFloat.mul 1%float x0 in
  let p1 := PrimFloat.mul x0 (PrimFloat.add 1%float eps) in
  let p1 := PrimFloat.add p1 (if PrimFloat.leb 0%float p1 then eps
                              else PrimFloat.opp eps) in
  q0 <- func p0 ;;
  q1 <- func p1 ;;
  if PrimFloat.ltb (PrimFloat.abs q1) (PrimFloat.abs q0)
  then secant_loop func maxiter p1 p0 q1 q0
  else secant_loop func maxiter p0 p1 q0 q1.

(** A [pow] that knows no value: every call overflows. *)
Definition no_libm (b e : float) : ArithError + float := inl Overflow.

(** A [pow] that knows the value at exponent one, the base itself, and no
    other. *)
Definition pow_at_one (b e : float) : ArithError + float :=
  if PrimFloat.eqb e 1%float then inr b else inl Overflow.

End Binary64.

#[export] Instance python_float
  (libm_pow : float -> float -> ArithError + float) : PyNumber := {|
  num := float;
  of_int := Binary64.of_Z;
  year_fraction := fun days => PrimFloat.div (Binary64.of_Z days) 365%float;
  add := PrimFloat.add;
  truediv := Binary64.div;
  pow := Binary64.power libm_pow
|}.

#[export] Instance scipy_secant
  (libm_pow : float -> float -> ArithError + float)
  : RootFinder (python_float libm_pow) :=
  @Build_RootFinder (python_float libm_pow) Binary64.secant.

(** ** Notions used to state the properties *)

Fixpoint Qsum (l : list Q) : Q :=
  match l with
  | [] => 0%Q
  | x :: l' => (x + Qsum l')%Q
  end.

Section Notions.
Context {RE : RegexEngine} {BC : Beancount}.

(** The pending total of a bucket: the amount of its pending cashflow, zero
    when the bucket has none. *)
Definition pending_total (pending : Dict.t cashflow_t) (b : Account) : Decimal :=
  match Dict.lookup b pending with
  | Some c => amount c
  | None => 0%Q
  end.

(** The converted values of the postings of an entry, in order. *)
Definition posting_values (price_map : PriceMap) (currency' : Currency)
           (entry' : Transaction Posting) : result (list Decimal) :=
  map_result (posting_value price_map currency' entry') (t_postings entry').

(** What a posting brings to the buckets selected by [select]: its value
    when its account resolves to an asset account that [select] accepts. *)
Definition contribution (asset_account_map : list (Pattern * string))
           (price_map : PriceMap) (currency' : Currency)
           (select : Account -> bool)
           (entry' : Transaction Posting) (posting : Posting) : Decimal :=
  match posting_value price_map currency' entry' posting,
        get_asset_account (posting_account posting) asset_account_map with
  | Ok value, Some a => if select a then value else 0%Q
  | _, _ => 0%Q
  end.

Definition attributed (asset_account_map : list (Pattern * string))
           (price_map : PriceMap) (currency' : Currency)
           (select : Account -> bool)
           (entry' : Transaction Posting) : Decimal :=
  Qsum (List.map (contribution asset_account_map price_map currency' select
                               entry')
                 (t_postings entry')).

(** The three stages of [get_cashflows_by_asset_account]. *)
Definition transaction_cashflows
           (entries : list (Entry Posting DirectiveBody))
           (asset_account_map : list (string * string))
           (start_date_inclusive end_date_inclusive : option date)
           (currency' : Currency) : result (Dict.t (list cashflow_t)) :=
  for_each (extract_entry (compile_map asset_account_map)
                          (build_price_map entries) currency'
                          start_date_inclusive end_date_inclusive)
           (filter_txns entries) Dict.empty.

Definition market_values_at
           (entries : list (Entry Posting DirectiveBody))
           (asset_account_map : list (string * string))
           (cutoff : option date) (currency' : Currency)
  : result (Dict.t Decimal) :=
  get_market_values_by_asset_account
    entries (compile_map asset_account_map) cutoff
    (build_price_map entries) currency'.

(** The market values behind the ending cashflows: those at the beginning
    of the day after [end_date_inclusive], or at the end of the ledger. *)
Definition ending_market_values
           (entries : list (Entry Posting DirectiveBody))
           (asset_account_map : list (string * string))
           (end_date_inclusive : option date) (currency' : Currency)
  : result (Dict.t Decimal) :=
  cutoff <- ending_cutoff end_date_inclusive ;;
  market_values_at entries asset_account_map cutoff currency'.

Definition market_value_of (values : result (Dict.t Decimal)) (a : Account)
  : Decimal :=
  match values with
  | Ok d => match Dict.lookup a d with Some v => v | None => 0%Q end
  | Raise _ => 0%Q
  end.

(** The boundary cashflows of a bucket. *)
Definition starting_part (values : Dict.t Decimal) (s : date) (a : Account)
  : list cashflow_t :=
  match Dict.lookup a values with
  | Some v => [starting_cashflow s v]
  | None => []
  end.

Definition ending_part (values : Dict.t Decimal) (e : option date) (a : Account)
  : list cashflow_t :=
  match Dict.lookup a values with
  | Some v => [ending_cashflow e v]
  | None => []
  end.

(** A cashflow of a transaction dated [d] inside the window. *)
Definition txn_dated (start_date_inclusive end_date_inclusive : option date)
           (d : date) (c : cashflow_t) : Prop :=
  kind c = txn /\ cf_date c = Some d /\
  in_window start_date_inclusive end_date_inclusive d = true.

(** A list of transaction cashflows whose dates [ds] are in order and
    inside the window. *)
Definition txn_bucket (start_date_inclusive end_date_inclusive : option date)
           (l : list cashflow_t) (ds : list date) : Prop :=
  List.map (@cf_date Posting) l = List.map Some ds /\
  StronglySorted Z.le ds /\
  Forall (fun d => in_window start_date_inclusive end_date_inclusive d = true)
         ds /\
  Forall (fun c => kind c = txn) l.

(** The boundary invariant as the specification words it, in three parts:
    with a start date, every non-empty bucket begins with a starting
    balance dated at the start; that first cashflow is non-negative; and
    every bucket ends with an ending balance dated at the end, the negation
    of its ending market value. *)
Definition begins_with_starting_balance (s : date)
           (m : Dict.t (list cashflow_t)) : Prop :=
  forall a l, Dict.lookup a m = Some l -> l <> [] ->
    exists c rest, l = c :: rest /\ kind c = starting_balance /\
                   cf_date c = Some s.

Definition first_amounts_non_negative (m : Dict.t (list cashflow_t)) : Prop :=
  forall a c rest, Dict.lookup a m = Some (c :: rest) -> (0 <= amount c)%Q.

Definition ends_with_ending_balance
           (entries : list (Entry Posting DirectiveBody))
           (asset_account_map : list (string * string))
           (end_date_inclusive : option date)
           (currency' : Currency) (m : Dict.t (list cashflow_t)) : Prop :=
  forall a l, Dict.lookup a m = Some l ->
    exists front c, l = (front ++ [c])%list /\ kind c = ending_balance /\
                    cf_date c = end_date_inclusive /\
                    (amount c ==
                     - market_value_of
                         (ending_market_values entries asset_account_map
                                               end_date_inclusive currency')
                         a)%Q.

Definition boundary_invariant
           (entries : list (Entry Posting DirectiveBody))
           (asset_account_map : list (string * string))
           (start_date_inclusive end_date_inclusive : option date)
           (currency' : Currency) (m : Dict.t (list cashflow_t)) : Prop :=
  (forall s, start_date_inclusive = Some s ->
             begins_with_starting_balance s m /\
             first_amounts_non_negative m) /\
  ends_with_ending_balance entries asset_account_map end_date_inclusive
                           currency' m.

Definition boundary_claim
           (entries : list (Entry Posting DirectiveBody))
           (asset_account_map : list (string * string))
           (start_date_inclusive end_date_inclusive : option date)
           (currency' : Currency) : Prop :=
  forall m,
    get_cashflows_by_asset_account entries asset_account_map
      start_date_inclusive end_date_inclusive currency' = Ok m ->
    boundary_invariant entries asset_account_map start_date_inclusive
                       end_date_inclusive currency' m.

(** Entries in chronological order. *)
Definition chronological (entries : list (Entry Posting DirectiveBody)) : Prop :=
  StronglySorted (fun x y => entry_date x <= entry_date y) entries.

(** Every cashflow carries a date and the dates never decrease. *)
Definition nondecreasing_dates (l : list cashflow_t) : Prop :=
  exists ds, List.map (@cf_date Posting) l = List.map Some ds /\
             StronglySorted Z.le ds.

(** A bucket in date order inside the window from [s] to [e]. *)
Definition in_date_order (s e : date) (l : list cashflow_t) : Prop :=
  nondecreasing_dates l /\
  (forall c, In c l -> kind c = starting_balance -> cf_date c = Some s) /\
  (forall c, In c l -> kind c = ending_balance -> cf_date c = Some e).

Definition date_order_claim
           (entries : list (Entry Posting DirectiveBody))
           (asset_account_map : list (string * string))
           (s e : date) (currency' : Currency) : Prop :=
  chronological entries ->
  forall m,
    get_cashflows_by_asset_account entries asset_account_map
      (Some s) (Some e) currency' = Ok m ->
    forall a l, Dict.lookup a m = Some l -> in_date_order s e l.

End Notions.

(** The outcomes the specification allows to [xirr]. *)
Definition rate_or_solver_failure {A : Type} (r : result A) : Prop :=
  (exists x, r = Ok x) \/ r = Raise OverflowError \/ r = Raise RuntimeError.

(** Zero or one cashflow, or amounts all of one sign. *)
Definition no_sign_change (cashflows : list (date * float)) : Prop :=
  (List.length cashflows <= 1)%nat \/
  Forall (fun c => PrimFloat.ltb 0%float (snd c) = true) cashflows \/
  Forall (fun c => PrimFloat.ltb (snd c) 0%float = true) cashflows.

(** The contract of [xirr] as the specification words it, on Python
    floats. *)
Definition xirr_claim (libm_pow : float -> float -> ArithError + float)
           (cashflows : list (date * float)) (guess : float) : Prop :=
  let r := xirr (RF := scipy_secant libm_pow) cashflows guess in
  rate_or_solver_failure r /\
  (no_sign_change cashflows -> r = Raise RuntimeError).

(** ** Sample ledgers *)
Module Sample.

Definition usd (n : Z) : Amount := mkAmount (n # 1) "USD".
Definition eur (n : Z) : Amount := mkAmount (n # 1) "EUR".

Definition post (a : Account) (n : Z) : Plain.posting :=
  Plain.mkPosting a (usd n).

(** An overdrawn bank account before the window, a salary paid into a
    brokerage account inside it. *)
Definition groceries : Transaction Plain.posting :=
  mkTransaction 1 [post "Assets:Bank" (-50); post "Expenses:Food" 50].

Definition salary : Transaction Plain.posting :=
  mkTransaction 5 [post "Assets:Broker" 100; post "Income:Salary" (-100)].

Definition ledger : list Plain.entry_t := [Txn groceries; Txn salary].

Definition accounts : list (string * string) :=
  [("Assets:Bank", "Assets:Bank"); ("Assets:Broker", "Assets:Broker")].

(** A transfer between two accounts of one bucket. *)
Definition transfer : Transaction Plain.posting :=
  mkTransaction 7 [post "Assets:Broker:Cash" (-30);
                   post "Assets:Broker:Fund" 30].

Definition one_bucket : list (string * string) :=
  [("Assets:Broker:Cash", "Assets:Broker"); ("Assets:Broker:Fund", "Assets:Broker")].

(** A posting in a currency the empty price map cannot convert. *)
Definition foreign : Transaction Plain.posting :=
  mkTransaction 5 [Plain.mkPosting "Assets:Bank" (eur 10);
                   Plain.mkPosting "Income:Salary" (eur (-10))].

End Sample.

(** ** The rest of the two files: reporting in irr.py, and notions for the
    properties of the code beyond the specification *)

From Stdlib Require Import Permutation.

(** The order of [sorted(cashflows, key=lambda x: x[0])]. *)
Definition by_date {A : Type} (a b : date * A) : Prop := fst a <= fst b.

Definition is_ending_balance (k : Kind) : bool :=
  match k with ending_balance => true | _ => false end.

Section Report.
Context {BC : Beancount}.

(** [sum([f.amount for f in cashflows if f.kind != 'ending balance'])] *)
Definition net_inflows (cashflows : list cashflow_t) : Decimal :=
  fold_left Qplus
            (List.map (@amount Posting)
                      (filter (fun f => negb (is_ending_balance (kind f)))
                              cashflows))
            0%Q.

(** [next((-f.amount for f in cashflows if f.kind == 'ending balance'), None)] *)
Definition market_value (cashflows : list cashflow_t) : option Decimal :=
  match filter (fun f => is_ending_balance (kind f)) cashflows with
  | f :: _ => Some (- amount f)%Q
  | [] => None
  end.

(** [[(f.date, float(f.amount)) for f in cashflows]], the argument of
    [xirr]: a list of dated amounts when every cashflow carries a date.
    [float] is the conversion of the numbers at hand. *)
Fixpoint dated_amounts {PN : PyNumber} (float' : Decimal -> num)
         (cashflows : list cashflow_t) : option (list (date * num)) :=
  match cashflows with
  | [] => Some []
  | f :: rest =>
      match cf_date f, dated_amounts float' rest with
      | Some d, Some l => Some ((d, float' (amount f)) :: l)
      | _, _ => None
      end
  end.

(** The value of an attribute of a [Cashflow]. *)
Inductive attribute : Type :=
| DateValue (d : option date)
| DecimalValue (x : Decimal)
| KindValue (k : Kind)
| AccountsValue (s : list Account)
| EntryValue (e : option txn_t)
| MethodValue (name : string).

(** The methods the [dataclass] decorator and [object] give a [Cashflow]. *)
Definition cashflow_methods : list string :=
  ["__init__"; "__repr__"; "__eq__"; "__ne__"; "__hash__"; "__str__";
   "__class__"; "__dict__"; "__doc__"; "__module__"; "__dataclass_fields__";
   "__dataclass_params__"; "__match_args__"; "__annotations__";
   "__getattribute__"; "__setattr__"; "__delattr__"; "__dir__";
   "__format__"; "__sizeof__"; "__reduce__"; "__reduce_ex__";
   "__init_subclass__"; "__subclasshook__"; "__new__"; "__weakref__";
   "__lt__"; "__le__"; "__gt__"; "__ge__"; "__getstate__"].

(** [getattr(f, name)] on a [Cashflow]. *)
Definition cashflow_attribute (name : string) (f : cashflow_t)
  : result attribute :=
  if String.eqb name "date" then Ok (DateValue (cf_date f))
  else if String.eqb name "amount" then Ok (DecimalValue (amount f))
  else if String.eqb name "kind" then Ok (KindValue (kind f))
  else if String.eqb name "inflow_accounts"
       then Ok (AccountsValue (inflow_accounts f))
  else if String.eqb name "outflow_accounts"
       then Ok (AccountsValue (outflow_accounts f))
  else if String.eqb name "entry" then Ok (EntryValue (entry f))
  else if existsb (String.eqb name) cashflow_methods then Ok (MethodValue name)
  else Raise AttributeError.

(** [[f.inflows for f in cashflows]] and [[f.outflows for f in cashflows]],
    the lists the debugging output of irr.py builds. *)
Definition debug_inflows (cashflows : list cashflow_t)
  : result (list attribute) :=
  map_result (cashflow_attribute "inflows") cashflows.

Definition debug_outflows (cashflows : list cashflow_t)
  : result (list attribute) :=
  map_result (cashflow_attribute "outflows") cashflows.

End Report.

Section ExtraNotions.
Context {RE : RegexEngine} {BC : Beancount}.

(** What a real account brings to a valuation, and to which bucket: the
    number of its only converted position, when it is an assets account
    that resolves to a bucket. *)
Definition account_value (asset_account_map : list (Pattern * string))
           (price_map : PriceMap) (currency' : Currency)
           (real_account : RealAccount) : option (Account * Decimal) :=
  if is_assets_account (real_account_name real_account) then
    match get_asset_account (real_account_name real_account)
                            asset_account_map with
    | Some b =>
        match reduce_convert_position (compute_balance real_account)
                                      currency' price_map with
        | [position] => Some (b, number (units position))
        | _ => None
        end
    | None => None
    end
  else None.

(** The values the real accounts bring to the bucket [b], in order. *)
Definition bucket_values (asset_account_map : list (Pattern * string))
           (price_map : PriceMap) (currency' : Currency) (b : Account)
           (real_accounts : list RealAccount) : list Decimal :=
  flat_map (fun ra =>
              match account_value asset_account_map price_map currency' ra with
              | Some (b', v) => if String.eqb b b' then [v] else []
              | None => []
              end)
           real_accounts.

(** The accounts of the postings of an entry that lie outside a bucket and
    whose weight is positive, or not. *)
Definition flows_out (asset_account_map : list (Pattern * string))
           (a : Account) (posting : Posting) : bool :=
  outside_bucket asset_account_map a posting &&
  positive (number (get_weight posting)).

Definition flows_in (asset_account_map : list (Pattern * string))
           (a : Account) (posting : Posting) : bool :=
  outside_bucket asset_account_map a posting &&
  negb (positive (number (get_weight posting))).

(** What the extraction guarantees of a transaction cashflow [c] of the
    bucket [a]. *)
Definition transaction_cashflow
           (asset_account_map : list (Pattern * string))
           (price_map : PriceMap) (currency' : Currency)
           (start_date_inclusive end_date_inclusive : option date)
           (txns : list txn_t) (a : Account) (c : cashflow_t) : Prop :=
  exists t,
    In t txns /\
    in_window start_date_inclusive end_date_inclusive (t_date t) = true /\
    kind c = txn /\
    entry c = Some t /\
    cf_date c = Some (t_date t) /\
    nonzero (quantize_hundredths (amount c)) = true /\
    (amount c ==
     attributed asset_account_map price_map currency' (in_parents a) t)%Q /\
    NoDup (inflow_accounts c) /\ NoDup (outflow_accounts c) /\
    (forall x, In x (outflow_accounts c) <->
               exists p, In p (t_postings t) /\ posting_account p = x /\
                         flows_out asset_account_map a p = true) /\
    (forall x, In x (inflow_accounts c) <->
               exists p, In p (t_postings t) /\ posting_account p = x /\
                         flows_in asset_account_map a p = true).

End ExtraNotions.

(** * Properties *)

Unset Implicit Arguments.

(** ** The error monad *)

Lemma bind_ok_inv {A B : Type} (m : result A) (k : A -> result B) (b : B) :
  bind m k = Ok b -> exists a, m = Ok a /\ k a = Ok b.
Proof.
  destruct m as [a|e]; simpl; intros H; [eauto | discriminate].
Qed.

Lemma for_each_app {A S : Type} (body : S -> A -> result S) (xs ys : list A) (s : S) :
  for_each body (xs ++ ys) s = (s' <- for_each body xs s ;; for_each body ys s').
Proof.
  revert s; induction xs as [|x xs IH]; intros s; simpl; [reflexivity|].
  destruct (body s x); simpl; auto.
Qed.

(** An invariant of the loop body is an invariant of the loop. *)
Lemma for_each_invariant_in {A S : Type} (body : S -> A -> result S)
      (P : S -> Prop) (xs : list A) :
  (forall s x s', In x xs -> P s -> body s x = Ok s' -> P s') ->
  forall s s', P s -> for_each body xs s = Ok s' -> P s'.
Proof.
  induction xs as [|x xs IH]; simpl; intros Hstep s s' Hs H.
  - inversion H; subst; exact Hs.
  - apply bind_ok_inv in H as (s1 & H1 & H2).
    apply (IH (fun s x s' Hx => Hstep s x s' (or_intror Hx)) s1 s'); eauto.
Qed.

Lemma for_each_invariant {A S : Type} (body : S -> A -> result S) (P : S -> Prop) :
  (forall s x s', P s -> body s x = Ok s' -> P s') ->
  forall xs s s', P s -> for_each body xs s = Ok s' -> P s'.
Proof.
  intros Hstep xs. apply for_each_invariant_in. eauto.
Qed.

(** A loop whose body never raises is a fold. *)
Lemma for_each_total {A S : Type} (body : S -> A -> result S) (f : S -> A -> S) :
  forall xs s, (forall s x, In x xs -> body s x = Ok (f s x)) ->
               for_each body xs s = Ok (fold_left f xs s).
Proof.
  induction xs as [|x xs IH]; simpl; intros s H; [reflexivity|].
  rewrite (H s x) by auto. simpl. apply IH. intros; apply H; auto.
Qed.

Lemma fold_left_pointwise {A S : Type} (f g : S -> A -> S) :
  (forall s x, f s x = g s x) ->
  forall xs s, fold_left f xs s = fold_left g xs s.
Proof.
  intros H xs; induction xs as [|x xs IH]; intros s; simpl; [reflexivity|].
  now rewrite H, IH.
Qed.

(** ** Dictionaries *)

Section DictFacts.
Context {V : Type}.
Implicit Types (d : Dict.t V) (k : string) (v : V).

Lemma lookup_set_eq d k v : Dict.lookup k (Dict.set k v d) = Some v.
Proof.
  induction d as [|[k' v'] d IH]; simpl.
  - now rewrite String.eqb_refl.
  - destruct (String.eqb k k') eqn:E; simpl; rewrite ?String.eqb_refl, ?E; auto.
Qed.

Lemma lookup_set_ne d k k' v :
  k' <> k -> Dict.lookup k' (Dict.set k v d) = Dict.lookup k' d.
Proof.
  intros Hne. induction d as [|[k0 v0] d IH]; simpl.
  - apply String.eqb_neq in Hne. now rewrite Hne.
  - destruct (String.eqb k k0) eqn:E; simpl.
    + apply String.eqb_eq in E; subst k0.
      apply String.eqb_neq in Hne. now rewrite Hne.
    + now rewrite IH.
Qed.

Lemma lookup_update_eq d k (default : V) (f : V -> V) :
  Dict.lookup k (Dict.update default f k d) =
  Some (f (match Dict.lookup k d with Some v => v | None => default end)).
Proof. apply lookup_set_eq. Qed.

Lemma lookup_update_ne d k k' (default : V) (f : V -> V) :
  k' <> k -> Dict.lookup k' (Dict.update default f k d) = Dict.lookup k' d.
Proof. apply lookup_set_ne. Qed.

Lemma lookup_None_keys d k : Dict.lookup k d = None <-> ~ In k (Dict.keys d).
Proof.
  induction d as [|[k' v'] d IH]; simpl.
  - tauto.
  - destruct (String.eqb k k') eqn:E.
    + apply String.eqb_eq in E; subst. split; [discriminate | tauto].
    + apply String.eqb_neq in E. rewrite IH. split.
      * intros H [H1|H1]; congruence.
      * tauto.
Qed.

Lemma keys_set d k v :
  Dict.keys (Dict.set k v d) =
  if Dict.mem k d then Dict.keys d else (Dict.keys d ++ [k])%list.
Proof.
  unfold Dict.mem, Dict.keys.
  induction d as [|[k' v'] d IH]; simpl; [reflexivity|].
  destruct (String.eqb k k') eqn:E; simpl.
  - apply String.eqb_eq in E; now subst.
  - rewrite IH. now destruct (Dict.lookup k d).
Qed.

Lemma wf_set d k v : Dict.wf d -> Dict.wf (Dict.set k v d).
Proof.
  unfold Dict.wf. intros Hwf. rewrite keys_set. unfold Dict.mem.
  destruct (Dict.lookup k d) eqn:E; [exact Hwf|].
  apply lookup_None_keys in E.
  apply NoDup_app; [exact Hwf | repeat constructor; simpl; tauto |].
  intros a Ha [<-|[]]. contradiction.
Qed.

Lemma wf_update d k (default : V) (f : V -> V) :
  Dict.wf d -> Dict.wf (Dict.update default f k d).
Proof. apply wf_set. Qed.

Lemma wf_empty : Dict.wf (@Dict.empty V).
Proof. constructor. Qed.

Lemma wf_fold_update {A : Type} (g : Dict.t V -> A -> Dict.t V) :
  (forall d x, Dict.wf d -> Dict.wf (g d x)) ->
  forall xs d, Dict.wf d -> Dict.wf (fold_left g xs d).
Proof.
  intros Hg xs; induction xs; simpl; auto.
Qed.

(** In a well-formed dictionary an item is what [lookup] finds at its key. *)
Lemma wf_lookup_item d k v : Dict.wf d -> In (k, v) d -> Dict.lookup k d = Some v.
Proof.
  unfold Dict.wf. induction d as [|[k' v'] d IH]; simpl; intros Hwf Hin; [tauto|].
  inversion Hwf as [|? ? Hnot Hwf']; subst.
  destruct Hin as [Heq|Hin].
  - inversion Heq; subst. now rewrite String.eqb_refl.
  - destruct (String.eqb k k') eqn:E.
    + apply String.eqb_eq in E; subst. exfalso. apply Hnot.
      change k' with (fst (k', v)). now apply in_map.
    + auto.
Qed.

Lemma lookup_item d k v : Dict.lookup k d = Some v -> In (k, v) d.
Proof.
  induction d as [|[k' v'] d IH]; simpl; [discriminate|].
  destruct (String.eqb k k') eqn:E; intros H.
  - apply String.eqb_eq in E; subst. inversion H; auto.
  - auto.
Qed.

End DictFacts.

(** ** Account names *)

Lemma split_sep_not_nil s : split_sep s <> [].
Proof.
  destruct s as [|c s]; simpl; [discriminate|].
  destruct (Ascii.eqb c sep); [discriminate|].
  destruct (split_sep s); discriminate.
Qed.

Lemma join_split s : join_sep (split_sep s) = s.
Proof.
  induction s as [|c s IH]; simpl; [reflexivity|].
  pose proof (split_sep_not_nil s) as Hne.
  destruct (Ascii.eqb c sep) eqn:E.
  - apply Ascii.eqb_eq in E; subst c.
    destruct (split_sep s) as [|x xs]; [congruence|].
    simpl in *. now rewrite IH.
  - destruct (split_sep s) as [|x xs]; [congruence|].
    destruct xs as [|y ys]; simpl in *; now rewrite <- IH.
Qed.

Lemma length_append (a b : string) :
  String.length (a ++ b) = (String.length a + String.length b)%nat.
Proof. induction a; simpl; auto. Qed.

(** Dropping the last component drops at least one character, unless the
    only component is empty. *)
Lemma length_join_removelast (l : list string) :
  l <> [] ->
  String.length (join_sep l) =
  (String.length (join_sep (removelast l)) + String.length (last l EmptyString) +
   match removelast l with [] => 0 | _ :: _ => 1 end)%nat.
Proof.
  induction l as [|x l IH]; [congruence|]. intros _.
  destruct l as [|y l].
  - simpl. lia.
  - assert (Hne : y :: l <> []) by discriminate.
    specialize (IH Hne).
    change (removelast (x :: y :: l)) with (x :: removelast (y :: l)).
    change (last (x :: y :: l) EmptyString) with (last (y :: l) EmptyString).
    change (join_sep (x :: y :: l)) with (x ++ String sep (join_sep (y :: l))).
    rewrite length_append. cbn [String.length]. rewrite IH.
    destruct (removelast (y :: l)) as [|z zs] eqn:E.
    + simpl. lia.
    + change (join_sep (x :: z :: zs)) with (x ++ String sep (join_sep (z :: zs))).
      rewrite length_append. cbn [String.length]. lia.
Qed.

Lemma parent_shorter s p :
  parent s = Some p -> (String.length p < String.length s)%nat.
Proof.
  destruct s as [|c s]; [discriminate|].
  intros H.
  assert (Hp : p = join_sep (removelast (split_sep (String c s))))
    by (change (parent (String c s))
          with (Some (join_sep (removelast (split_sep (String c s))))) in H;
        congruence).
  subst p; clear H.
  pose proof (length_join_removelast _ (split_sep_not_nil (String c s))) as Hlen.
  rewrite join_split in Hlen.
  destruct (removelast (split_sep (String c s))) eqn:E.
  - cbn [join_sep String.length]. lia.
  - lia.
Qed.

Lemma parents_loop_empty fuel : parents_loop fuel EmptyString = [].
Proof. destruct fuel; reflexivity. Qed.

(** Any fuel beyond the length of the name gives the same list. *)
Lemma parents_loop_enough :
  forall n m s, (String.length s <= n)%nat -> (String.length s <= m)%nat ->
                parents_loop n s = parents_loop m s.
Proof.
  induction n as [|n IH]; intros m s Hn Hm.
  - destruct s; simpl in Hn; [|lia]. now rewrite !parents_loop_empty.
  - destruct m as [|m].
    + destruct s; simpl in Hm; [|lia]. now rewrite !parents_loop_empty.
    + destruct s as [|c s]; [reflexivity|].
      cbn [parents_loop]. f_equal.
      destruct (parent (String c s)) as [p|] eqn:E; [|reflexivity].
      apply parent_shorter in E. apply IH; lia.
Qed.

(** The equation of the loop of [account.parents]. *)
Lemma parents_unfold s :
  parents s = match s with
              | EmptyString => []
              | _ => s :: match parent s with
                          | Some p => parents p
                          | None => []
                          end
              end.
Proof.
  unfold parents. destruct s as [|c s]; [reflexivity|].
  cbn [String.length parents_loop]. f_equal.
  destruct (parent (String c s)) as [p|] eqn:E; [|reflexivity].
  apply parent_shorter in E. simpl in E. apply parents_loop_enough; lia.
Qed.

Lemma parents_self s : s <> EmptyString -> In s (parents s).
Proof.
  intros H. rewrite parents_unfold. destruct s; [congruence|]. now left.
Qed.

Lemma parents_empty : parents EmptyString = [].
Proof. reflexivity. Qed.

(** Induction on the length of an account name. *)
Lemma account_ind (P : string -> Prop) :
  (forall s, (forall p, (String.length p < String.length s)%nat -> P p) -> P s) ->
  forall s, P s.
Proof.
  intros H s. remember (String.length s) as n eqn:Hn. revert s Hn.
  induction n as [n IH] using (well_founded_induction Wf_nat.lt_wf).
  intros s ->. apply H. intros p Hp. eapply IH; eauto.
Qed.

Lemma in_parents_length s :
  forall x, In x (parents s) -> (String.length x <= String.length s)%nat.
Proof.
  induction s as [s IH] using account_ind. intros x Hx.
  rewrite parents_unfold in Hx. destruct s as [|c s]; [contradiction|].
  destruct Hx as [<-|Hx]; [lia|].
  destruct (parent (String c s)) as [p|] eqn:E; [|contradiction].
  apply parent_shorter in E. specialize (IH p E x Hx). lia.
Qed.

Lemma parents_NoDup s : NoDup (parents s).
Proof.
  induction s as [s IH] using account_ind.
  rewrite parents_unfold. destruct s as [|c s]; [constructor|].
  destruct (parent (String c s)) as [p|] eqn:E.
  - pose proof (parent_shorter _ _ E) as Hlt. constructor; [|auto].
    intros Hin. apply in_parents_length in Hin. lia.
  - repeat constructor. simpl. tauto.
Qed.

(** An ancestor of an ancestor is an ancestor. *)
Lemma parents_trans a b c :
  In a (parents b) -> In b (parents c) -> In a (parents c).
Proof.
  revert a b. induction c as [c IH] using account_ind. intros a b Hab Hbc.
  rewrite parents_unfold in Hbc |- *. destruct c as [|ch c]; [contradiction|].
  destruct Hbc as [<-|Hbc].
  - rewrite parents_unfold in Hab. exact Hab.
  - right. destruct (parent (String ch c)) as [p|] eqn:E; [|contradiction].
    eapply IH; eauto using parent_shorter.
Qed.

Lemma in_parents_iff a b : in_parents a b = true <-> In a (parents b).
Proof.
  unfold in_parents. rewrite existsb_exists. split.
  - intros (x & Hx & E). apply String.eqb_eq in E. now subst.
  - intros H. exists a. split; [exact H | apply String.eqb_refl].
Qed.

Lemma in_parents_trans a b c :
  in_parents a b = true -> in_parents b c = true -> in_parents a c = true.
Proof. rewrite !in_parents_iff. apply parents_trans. Qed.

(** ** [get_asset_account] *)

Section AccountMapperFacts.
Context {RE : RegexEngine}.

(** First match wins: the result is the substitution made by the first rule,
    in the order of the map, that substitutes at least once; there is no
    result exactly when no rule substitutes. *)
Lemma get_asset_account_first_match (account : Account)
      (rules : list (Pattern * string)) :
  match get_asset_account account rules with
  | Some asset_account =>
      exists before pattern replacement after n,
        rules = (before ++ (pattern, replacement) :: after)%list /\
        Forall (no_match account) before /\
        subn pattern replacement account = (asset_account, n) /\
        (0 < n)%nat
  | None => Forall (no_match account) rules
  end.
Proof.
  induction rules as [|[pattern replacement] rules IH]; simpl; [constructor|].
  destruct (subn pattern replacement account) as [asset_account n] eqn:E.
  destruct (0 <? n)%nat eqn:Hn.
  - apply Nat.ltb_lt in Hn.
    exists [], pattern, replacement, rules, n. simpl. auto.
  - apply Nat.ltb_ge in Hn.
    assert (H0 : no_match account (pattern, replacement))
      by (unfold no_match; simpl; rewrite E; simpl; lia).
    destruct (get_asset_account account rules) as [r|].
    + destruct IH as (before & p & rep & after & m & -> & Hb & Hs & Hm).
      exists ((pattern, replacement) :: before), p, rep, after, m.
      simpl. auto.
    + constructor; assumption.
Qed.

End AccountMapperFacts.

(** C3, at the failing input: the pattern [Brokerage] does not match at the
    beginning of [Assets:Brokerage], yet [get_asset_account] takes its rule
    as matching and returns the name with the inner occurrence replaced,
    where a match anchored at the beginning of the name would return
    nothing. *)
Theorem get_asset_account_matches_inside_name :
  Literal.matches_at_start "Brokerage" "Assets:Brokerage" = false /\
  get_asset_account (RE := literal_engine) "Assets:Brokerage"
                    [("Brokerage", "Portfolio")] = Some "Assets:Portfolio".
Proof. split; reflexivity. Qed.

(** ** [get_number] *)

Lemma get_number_same_currency (amount : Amount) :
  get_number amount (currency amount) = Ok (number amount).
Proof. unfold get_number. now rewrite String.eqb_refl. Qed.

Lemma get_number_ok (amount : Amount) (currency' : Currency) :
  currency amount = currency' ->
  get_number amount currency' = Ok (number amount).
Proof. intros <-. apply get_number_same_currency. Qed.

Lemma get_number_other_currency (amount : Amount) (currency' : Currency) :
  currency amount <> currency' ->
  get_number amount currency' = Raise (NameError "converted").
Proof.
  intros H. unfold get_number. apply String.eqb_neq in H. now rewrite H.
Qed.

Lemma get_number_ok_inv (amount : Amount) (currency' : Currency) (v : Decimal) :
  get_number amount currency' = Ok v ->
  currency amount = currency' /\ v = number amount.
Proof.
  unfold get_number. destruct (String.eqb (currency amount) currency') eqn:E.
  - apply String.eqb_eq in E. simpl. intros [= <-]. auto.
  - simpl. discriminate.
Qed.

Lemma get_number_raise_inv (amount : Amount) (currency' : Currency) (e : exn) :
  get_number amount currency' = Raise e ->
  currency amount <> currency' /\ e = NameError "converted".
Proof.
  unfold get_number. destruct (String.eqb (currency amount) currency') eqn:E.
  - simpl. discriminate.
  - apply String.eqb_neq in E. simpl. intros [= <-]. auto.
Qed.

(** C10: the three names the message reads first are bound nowhere in the
    scope of [get_number]; on a currency mismatch the function therefore
    raises [NameError] for the first of them, not [AssertionError]; when
    the currencies agree it returns the number of the amount. *)
Theorem get_number_name_error (amount : Amount) (currency' : Currency) :
  let scope := (get_number_locals ++ module_globals ++ builtins)%list in
  bound_in scope "converted" = false /\
  bound_in scope "entry" = false /\
  bound_in scope "posting" = false /\
  get_number amount currency' =
  if String.eqb (currency amount) currency'
  then Ok (number amount)
  else Raise (NameError "converted").
Proof.
  repeat split.
  unfold get_number. destruct (String.eqb (currency amount) currency'); reflexivity.
Qed.

(** ** Decimal arithmetic *)

Lemma round_half_even_zero (x : Q) : (x == 0)%Q -> round_half_even x = 0.
Proof.
  unfold Qeq, round_half_even. simpl. rewrite Z.mul_1_r. intros ->.
  rewrite Z.div_0_l, Z.mod_0_l by discriminate. reflexivity.
Qed.

(** A total that is zero is still zero once rounded to cents. *)
Lemma quantize_zero (x : Decimal) :
  (x == 0)%Q -> nonzero (quantize_hundredths x) = false.
Proof.
  intros H. unfold nonzero, quantize_hundredths.
  rewrite round_half_even_zero by (rewrite H; reflexivity).
  reflexivity.
Qed.

(** ** Pending totals of a transaction *)

Section PendingFacts.
Context {RE : RegexEngine} {BC : Beancount}.
Variable asset_account_map : list (Pattern * string).
Variable price_map : PriceMap.
Variable currency' : Currency.

Lemma pending_total_add (entry' : txn_t) (value : Decimal)
      (pending : Dict.t cashflow_t) (a b : Account) :
  pending_total (add_to_pending entry' value pending a) b =
  if String.eqb b a then (pending_total pending a + value)%Q
  else pending_total pending b.
Proof.
  unfold pending_total, add_to_pending.
  destruct (String.eqb b a) eqn:E.
  - apply String.eqb_eq in E; subst b. rewrite lookup_update_eq.
    destruct (Dict.lookup a pending); reflexivity.
  - apply String.eqb_neq in E. now rewrite lookup_update_ne.
Qed.

Lemma pending_total_fold (entry' : txn_t) (value : Decimal) (b : Account) :
  forall (buckets : list Account) (pending : Dict.t cashflow_t),
    NoDup buckets ->
    pending_total (fold_left (add_to_pending entry' value) buckets pending) b =
    if existsb (String.eqb b) buckets then (pending_total pending b + value)%Q
    else pending_total pending b.
Proof.
  induction buckets as [|a buckets IH]; intros pending Hnd; simpl; [reflexivity|].
  inversion Hnd as [|? ? Hnot Hnd']; subst.
  rewrite IH by assumption. rewrite !pending_total_add.
  destruct (String.eqb b a) eqn:E; simpl.
  - apply String.eqb_eq in E; subst b.
    destruct (existsb (String.eqb a) buckets) eqn:Ex; [|reflexivity].
    apply existsb_exists in Ex as (x & Hx & Hxa).
    apply String.eqb_eq in Hxa; subst x. contradiction.
  - reflexivity.
Qed.

(** One posting: every bucket of [parents(asset_account)] receives the
    value of the posting, every other bucket keeps its total. *)
Lemma accumulate_posting_total (entry' : txn_t) (posting : Posting)
      (value : Decimal) (asset_account : Account)
      (pending : Dict.t cashflow_t) :
  posting_value price_map currency' entry' posting = Ok value ->
  get_asset_account (posting_account posting) asset_account_map =
    Some asset_account ->
  exists pending',
    accumulate_posting asset_account_map price_map currency' entry' pending
                       posting = Ok pending' /\
    forall b, pending_total pending' b =
              if in_parents b asset_account
              then (pending_total pending b + value)%Q
              else pending_total pending b.
Proof.
  intros Hv Ha. unfold accumulate_posting. rewrite Hv, Ha. simpl.
  eexists; split; [reflexivity|]. intros b.
  apply pending_total_fold, parents_NoDup.
Qed.

Lemma accumulate_posting_step (entry' : txn_t) (posting : Posting)
      (pending pending' : Dict.t cashflow_t) (select_bucket : Account) :
  accumulate_posting asset_account_map price_map currency' entry' pending
                     posting = Ok pending' ->
  pending_total pending' select_bucket =
  (if match get_asset_account (posting_account posting) asset_account_map with
      | Some a => in_parents select_bucket a
      | None => false
      end
   then (pending_total pending select_bucket +
         contribution asset_account_map price_map currency'
                      (in_parents select_bucket) entry' posting)%Q
   else pending_total pending select_bucket) /\
  (match get_asset_account (posting_account posting) asset_account_map with
   | Some a => in_parents select_bucket a
   | None => false
   end = false ->
   contribution asset_account_map price_map currency'
                (in_parents select_bucket) entry' posting = 0%Q).
Proof.
  unfold accumulate_posting, contribution.
  destruct (posting_value price_map currency' entry' posting) as [v|e];
    simpl; [|discriminate].
  destruct (get_asset_account (posting_account posting) asset_account_map)
    as [a|]; intros [= <-].
  - rewrite pending_total_fold by apply parents_NoDup.
    fold (in_parents select_bucket a).
    destruct (in_parents select_bucket a); split; auto; discriminate.
  - auto.
Qed.

(** The pending total of a bucket is what the postings below it bring. *)
Lemma pending_total_for_each (entry' : txn_t) (b : Account) :
  forall (postings : list Posting) (pending0 pending : Dict.t cashflow_t),
    for_each (accumulate_posting asset_account_map price_map currency' entry')
             postings pending0 = Ok pending ->
    (pending_total pending b ==
     pending_total pending0 b +
     Qsum (List.map (contribution asset_account_map price_map currency'
                                  (in_parents b) entry') postings))%Q.
Proof.
  induction postings as [|p postings IH]; simpl; intros pending0 pending H.
  - inversion H; subst. ring.
  - apply bind_ok_inv in H as (pending1 & H1 & H2).
    rewrite (IH _ _ H2).
    destruct (accumulate_posting_step _ _ _ _ b H1) as [Ht Hc].
    rewrite Ht.
    destruct (match get_asset_account (posting_account p) asset_account_map with
              | Some a => in_parents b a
              | None => false
              end) eqn:E.
    + ring.
    + rewrite (Hc eq_refl). ring.
Qed.

Lemma pending_total_attributed (entry' : txn_t) (pending : Dict.t cashflow_t)
      (b : Account) :
  pending_cashflows asset_account_map price_map currency' entry' = Ok pending ->
  (pending_total pending b ==
   attributed asset_account_map price_map currency' (in_parents b) entry')%Q.
Proof.
  intros H. unfold pending_cashflows in H.
  rewrite (pending_total_for_each _ b _ _ _ H).
  unfold pending_total, attributed. simpl. ring.
Qed.

(** What an ancestor bucket is attributed splits into what the child bucket
    is attributed and what the rest of the ancestor's subtree brings. *)
Lemma attributed_split (entry' : txn_t) (child anc : Account) :
  in_parents anc child = true ->
  (attributed asset_account_map price_map currency' (in_parents anc) entry' ==
   attributed asset_account_map price_map currency' (in_parents child) entry' +
   attributed asset_account_map price_map currency'
              (fun a => in_parents anc a && negb (in_parents child a)) entry')%Q.
Proof.
  intros Hanc. unfold attributed.
  induction (t_postings entry') as [|p ps IH]; simpl; [ring|].
  rewrite IH.
  assert (Hp : (contribution asset_account_map price_map currency'
                             (in_parents anc) entry' p ==
                contribution asset_account_map price_map currency'
                             (in_parents child) entry' p +
                contribution asset_account_map price_map currency'
                  (fun a => in_parents anc a && negb (in_parents child a))
                  entry' p)%Q).
  { unfold contribution.
    destruct (posting_value price_map currency' entry' p) as [v|e]; [|ring].
    destruct (get_asset_account (posting_account p) asset_account_map) as [a|];
      [|ring].
    destruct (in_parents child a) eqn:Hc.
    - rewrite (in_parents_trans _ _ _ Hanc Hc). simpl. ring.
    - destruct (in_parents anc a); simpl; ring. }
  rewrite Hp. ring.
Qed.

(** The pending dictionary has one cashflow per bucket. *)
Lemma pending_cashflows_wf (entry' : txn_t) (pending : Dict.t cashflow_t) :
  pending_cashflows asset_account_map price_map currency' entry' = Ok pending ->
  Dict.wf pending.
Proof.
  unfold pending_cashflows.
  apply for_each_invariant; [|apply wf_empty].
  intros s x s' Hs. unfold accumulate_posting.
  destruct (posting_value price_map currency' entry' x); simpl; [|discriminate].
  destruct (get_asset_account (posting_account x) asset_account_map);
    intros [= <-]; [|assumption].
  apply wf_fold_update; [|assumption].
  intros d b. apply wf_update.
Qed.

End PendingFacts.

(** ** Ancestor buckets (C4) and internal transfers (C5) *)

Section TransactionFacts.
Context {RE : RegexEngine} {BC : Beancount}.
Variable asset_account_map : list (Pattern * string).
Variable price_map : PriceMap.
Variable currency' : Currency.


Lemma posting_values_accumulate (entry' : txn_t) :
  forall (postings : list Posting) (values : list Decimal)
         (pending0 : Dict.t cashflow_t),
    map_result (posting_value price_map currency' entry') postings = Ok values ->
    exists pending,
      for_each (accumulate_posting asset_account_map price_map currency' entry')
               postings pending0 = Ok pending.
Proof.
  induction postings as [|p ps IH]; simpl; intros values pending0 H.
  - eauto.
  - apply bind_ok_inv in H as (v & Hv & H).
    apply bind_ok_inv in H as (vs & Hvs & _).
    unfold accumulate_posting at 1. rewrite Hv. simpl.
    destruct (get_asset_account (posting_account p) asset_account_map);
      simpl; eapply IH; eauto.
Qed.

(** When every posting resolves to one asset account, a selection of
    buckets is attributed the whole sum of the values or nothing. *)
Lemma attributed_one_bucket (entry' : txn_t) (A : Account)
      (select : Account -> bool) :
  forall (postings : list Posting) (values : list Decimal),
    (forall p, In p postings ->
               get_asset_account (posting_account p) asset_account_map = Some A) ->
    map_result (posting_value price_map currency' entry') postings = Ok values ->
    (Qsum (List.map (contribution asset_account_map price_map currency'
                                  select entry') postings) ==
     if select A then Qsum values else 0)%Q.
Proof.
  induction postings as [|p ps IH]; simpl; intros values Hall H.
  - inversion H; subst. destruct (select A); reflexivity.
  - apply bind_ok_inv in H as (v & Hv & H).
    apply bind_ok_inv in H as (vs & Hvs & [= <-]).
    rewrite (IH vs) by auto.
    unfold contribution. rewrite Hv, (Hall p) by auto.
    destruct (select A); simpl; ring.
Qed.

Lemma emit_nothing (entry' : txn_t) :
  forall (pending : Dict.t cashflow_t) (cashflows : Dict.t (list cashflow_t)),
    (forall k c, In (k, c) pending ->
                 nonzero (quantize_hundredths (amount c)) = false) ->
    fold_left (emit_pending asset_account_map entry') pending cashflows =
    cashflows.
Proof.
  induction pending as [|[k c] pending IH]; simpl; intros cashflows H;
    [reflexivity|].
  rewrite (H k c) by auto. apply IH. intros; eapply H; eauto.
Qed.


End TransactionFacts.



(** ** Buckets of cashflows *)

Section BucketFacts.
Context {A : Type}.
Implicit Types (d : Dict.t (list A)) (k a : string).

Lemma get_list_lookup d a l : Dict.lookup a d = Some l -> get_list d a = l.
Proof. unfold get_list. now intros ->. Qed.

Lemma get_list_update d k a (f : list A -> list A) :
  get_list (Dict.update [] f k d) a =
  if String.eqb a k then f (get_list d k) else get_list d a.
Proof.
  unfold get_list. destruct (String.eqb a k) eqn:E.
  - apply String.eqb_eq in E; subst a. now rewrite lookup_update_eq.
  - apply String.eqb_neq in E. now rewrite lookup_update_ne.
Qed.

(** Running [update] over the items of a well-formed dictionary touches
    each of its keys once. *)
Lemma lookup_fold_items {W : Type} (g : W -> list A -> list A) :
  forall (values : Dict.t W) (d : Dict.t (list A)) (a : string),
    Dict.wf values ->
    Dict.lookup a
      (fold_left (fun acc (item : string * W) =>
                    Dict.update [] (g (snd item)) (fst item) acc) values d) =
    match Dict.lookup a values with
    | Some w => Some (g w (get_list d a))
    | None => Dict.lookup a d
    end.
Proof.
  induction values as [|[k w] values IH]; intros d a Hwf; simpl; [reflexivity|].
  inversion Hwf as [|? ? Hnot Hwf']; subst.
  rewrite IH by assumption.
  destruct (String.eqb a k) eqn:E.
  - apply String.eqb_eq in E; subst a.
    apply (proj2 (lookup_None_keys values k)) in Hnot. rewrite Hnot.
    rewrite lookup_update_eq. reflexivity.
  - rewrite get_list_update, E.
    apply String.eqb_neq in E. now rewrite lookup_update_ne.
Qed.

End BucketFacts.

Section ExtractionFacts.
Context {RE : RegexEngine} {BC : Beancount}.

Lemma insert_starting_fold (s : date) (values : Dict.t Decimal)
      (cashflows : Dict.t (list cashflow_t)) (a : Account) :
  Dict.wf values ->
  Dict.lookup a (fold_left (insert_starting s) values cashflows) =
  match Dict.lookup a values with
  | Some v => Some (starting_cashflow s v :: get_list cashflows a)
  | None => Dict.lookup a cashflows
  end.
Proof.
  intros Hwf.
  rewrite <- (lookup_fold_items
                (fun v l => starting_cashflow (BC := BC) s v :: l)
                values cashflows a Hwf).
  f_equal. apply fold_left_pointwise. intros acc [k v]. reflexivity.
Qed.

Lemma append_ending_fold (e : option date) (values : Dict.t Decimal)
      (cashflows : Dict.t (list cashflow_t)) (a : Account) :
  Dict.wf values ->
  Dict.lookup a (fold_left (append_ending e) values cashflows) =
  match Dict.lookup a values with
  | Some v => Some (get_list cashflows a ++ [ending_cashflow e v])%list
  | None => Dict.lookup a cashflows
  end.
Proof.
  intros Hwf.
  rewrite <- (lookup_fold_items
                (fun v l => (l ++ [ending_cashflow (BC := BC) e v])%list)
                values cashflows a Hwf).
  f_equal. apply fold_left_pointwise. intros acc [k v]. reflexivity.
Qed.

(** A valuation has one entry per bucket. *)
Lemma market_values_wf (entries : list entry_t)
      (asset_account_map : list (Pattern * string)) (cutoff : option date)
      (price_map : PriceMap) (currency' : Currency) (values : Dict.t Decimal) :
  get_market_values_by_asset_account entries asset_account_map cutoff
                                     price_map currency' = Ok values ->
  Dict.wf values.
Proof.
  unfold get_market_values_by_asset_account.
  apply for_each_invariant; [|apply wf_empty].
  intros d ra d' Hd. unfold market_value_step.
  destruct (negb (is_assets_account (real_account_name ra)));
    [now intros [= <-]|].
  destruct (get_asset_account (real_account_name ra) asset_account_map);
    [|now intros [= <-]].
  destruct (is_empty _); [now intros [= <-]|].
  destruct (get_only_position _) as [[pos|]|]; simpl; try discriminate.
  destruct (get_number (units pos) currency'); simpl; [|discriminate].
  intros [= <-]. now apply wf_update.
Qed.

(** A valuation with a cutoff is the valuation, without cutoff, of the
    entries dated strictly before it. *)
Lemma market_values_strictly_before (entries : list entry_t)
      (asset_account_map : list (Pattern * string)) (cutoff : date)
      (price_map : PriceMap) (currency' : Currency) :
  get_market_values_by_asset_account entries asset_account_map (Some cutoff)
                                     price_map currency' =
  get_market_values_by_asset_account
    (filter (fun e => entry_date e <? cutoff) entries) asset_account_map None
    price_map currency'.
Proof. reflexivity. Qed.

(** The shape of the result: the cashflows of the transactions, then the
    starting balances in front, then the ending balances behind. *)
Lemma get_cashflows_by_asset_account_inv
      (entries : list entry_t) (asset_account_map : list (string * string))
      (start_date_inclusive end_date_inclusive : option date)
      (currency' : Currency) (m : Dict.t (list cashflow_t)) :
  get_cashflows_by_asset_account entries asset_account_map
    start_date_inclusive end_date_inclusive currency' = Ok m ->
  exists txns mid ev,
    transaction_cashflows entries asset_account_map start_date_inclusive
                          end_date_inclusive currency' = Ok txns /\
    match start_date_inclusive with
    | Some s =>
        exists sv,
          market_values_at entries asset_account_map (Some s) currency' = Ok sv /\
          forall a, Dict.lookup a mid =
                    match Dict.lookup a sv with
                    | Some v => Some (starting_cashflow s v :: get_list txns a)
                    | None => Dict.lookup a txns
                    end
    | None => mid = txns
    end /\
    ending_market_values entries asset_account_map end_date_inclusive
                         currency' = Ok ev /\
    forall a, Dict.lookup a m =
              match Dict.lookup a ev with
              | Some v =>
                  Some (get_list mid a ++
                        [ending_cashflow end_date_inclusive v])%list
              | None => Dict.lookup a mid
              end.
Proof.
  unfold get_cashflows_by_asset_account. intros H.
  apply bind_ok_inv in H as (txns & Htxns & H).
  apply bind_ok_inv in H as (mid & Hmid & H).
  apply bind_ok_inv in H as (cutoff & Hcut & H).
  apply bind_ok_inv in H as (ev & Hev & [= <-]).
  exists txns, mid, ev. split; [exact Htxns|]. split; [|split].
  - destruct start_date_inclusive as [s|].
    + apply bind_ok_inv in Hmid as (sv & Hsv & [= <-]).
      exists sv. split; [exact Hsv|]. intros a.
      apply insert_starting_fold. eapply market_values_wf; eauto.
    + now inversion Hmid.
  - unfold ending_market_values. rewrite Hcut. exact Hev.
  - intros a. apply append_ending_fold. eapply market_values_wf; eauto.
Qed.

End ExtractionFacts.

(** ** The cashflows of the transactions *)

Lemma StronglySorted_app {A : Type} (R : A -> A -> Prop) (l1 l2 : list A) :
  StronglySorted R l1 -> StronglySorted R l2 ->
  (forall x y, In x l1 -> In y l2 -> R x y) ->
  StronglySorted R (l1 ++ l2).
Proof.
  induction l1 as [|x l1 IH]; simpl; intros H1 H2 H; [exact H2|].
  inversion H1 as [|? ? Hs Hf]; subst. constructor.
  - apply IH; auto.
  - apply Forall_app. split; [exact Hf|].
    apply Forall_forall. intros y Hy. apply H; auto.
Qed.

Lemma set_items {V : Type} (d : Dict.t V) (k k' : string) (v v' : V) :
  In (k', v') (Dict.set k v d) -> (k' = k /\ v' = v) \/ In (k', v') d.
Proof.
  induction d as [|[k0 v0] d IH]; simpl.
  - intros [[= <- <-]|[]]. auto.
  - destruct (String.eqb k k0); simpl.
    + intros [[= <- <-]|H]; auto.
    + intros [H|H]; auto. destruct (IH H); auto.
Qed.

Section TransactionCashflows.
Context {RE : RegexEngine} {BC : Beancount}.
Variable asset_account_map : list (Pattern * string).
Variable price_map : PriceMap.
Variable currency' : Currency.
Variables start_date_inclusive end_date_inclusive : option date.

(** A pending cashflow is a transaction cashflow dated as its entry. *)
Lemma pending_cashflows_dated (entry' : txn_t) (pending : Dict.t cashflow_t) :
  pending_cashflows asset_account_map price_map currency' entry' = Ok pending ->
  forall k c, In (k, c) pending ->
              kind c = txn /\ cf_date c = Some (t_date entry').
Proof.
  unfold pending_cashflows.
  apply (for_each_invariant
           (accumulate_posting asset_account_map price_map currency' entry')
           (fun p => forall k c, In (k, c) p ->
                                 kind c = txn /\ cf_date c = Some (t_date entry')));
    [|intros k c []].
  intros p posting p' Hp. unfold accumulate_posting.
  destruct (posting_value price_map currency' entry' posting) as [v|];
    simpl; [|discriminate].
  destruct (get_asset_account (posting_account posting) asset_account_map)
    as [a|]; intros [= <-]; [|exact Hp].
  generalize (parents a). intros buckets. revert p Hp.
  induction buckets as [|b buckets IH]; simpl; intros p Hp; [exact Hp|].
  apply IH. intros k c Hin. unfold add_to_pending, Dict.update in Hin.
  apply set_items in Hin as [[-> ->]|Hin]; [|eauto].
  destruct (Dict.lookup b p) as [c0|] eqn:E.
  - apply lookup_item in E. apply Hp in E. exact E.
  - split; reflexivity.
Qed.

Lemma classify_keeps (a : Account) (postings : list Posting) :
  forall c : cashflow_t,
    let c' := fold_left (classify_posting asset_account_map a) postings c in
    kind c' = kind c /\ cf_date c' = cf_date c /\ amount c' = amount c.
Proof.
  induction postings as [|p ps IH]; simpl; intros c; [auto|].
  destruct (IH (classify_posting asset_account_map a c p)) as (H1 & H2 & H3).
  rewrite H1, H2, H3. unfold classify_posting.
  destruct (outside_bucket asset_account_map a p); [|auto].
  destruct (positive (number (get_weight p))); auto.
Qed.

(** Emitting the pending cashflows of an entry appends to each bucket
    cashflows of that entry, and nothing else. *)
Lemma emit_fold_lists (entry' : txn_t) (a : Account) :
  forall (pending : Dict.t cashflow_t) (cashflows : Dict.t (list cashflow_t)),
    (forall k c, In (k, c) pending ->
                 kind c = txn /\ cf_date c = Some (t_date entry')) ->
    exists new,
      get_list (fold_left (emit_pending asset_account_map entry') pending
                          cashflows) a =
      (get_list cashflows a ++ new)%list /\
      Forall (fun c => kind c = txn /\ cf_date c = Some (t_date entry')) new.
Proof.
  induction pending as [|[k c] pending IH]; simpl; intros cashflows Hp.
  - exists []. now rewrite app_nil_r.
  - assert (Hp' : forall k c, In (k, c) pending ->
                              kind c = txn /\ cf_date c = Some (t_date entry'))
      by (intros; eapply Hp; eauto).
    destruct (nonzero (quantize_hundredths (amount c))); [|now apply IH].
    edestruct (IH (Dict.update []
                     (fun l => (l ++ [fold_left
                                        (classify_posting asset_account_map k)
                                        (t_postings entry') c])%list)
                     k cashflows) Hp') as (new & Hnew & Hall).
    rewrite Hnew, get_list_update.
    destruct (String.eqb a k) eqn:E.
    + apply String.eqb_eq in E; subst k.
      eexists. rewrite <- app_assoc. split; [reflexivity|].
      constructor; [|exact Hall].
      destruct (classify_keeps a (t_postings entry') c) as (H1 & H2 & _).
      destruct (Hp a c (or_introl eq_refl)) as [H3 H4].
      split; congruence.
    + exists new. auto.
Qed.

Lemma extract_entry_lists (entry' : txn_t)
      (cashflows cashflows' : Dict.t (list cashflow_t)) (a : Account) :
  extract_entry asset_account_map price_map currency' start_date_inclusive
                end_date_inclusive cashflows entry' = Ok cashflows' ->
  exists new,
    get_list cashflows' a = (get_list cashflows a ++ new)%list /\
    Forall (txn_dated start_date_inclusive end_date_inclusive (t_date entry'))
           new.
Proof.
  unfold extract_entry.
  destruct (in_window start_date_inclusive end_date_inclusive (t_date entry'))
    eqn:Hwin; simpl.
  - intros H. apply bind_ok_inv in H as (pending & Hpending & [= <-]).
    destruct (emit_fold_lists entry' a pending cashflows
                (pending_cashflows_dated _ _ Hpending)) as (new & Hnew & Hall).
    exists new. split; [exact Hnew|].
    eapply Forall_impl; [|exact Hall].
    intros c [H1 H2]. repeat split; assumption.
  - intros [= <-]. exists []. now rewrite app_nil_r.
Qed.

(** Over transactions in date order, every bucket stays in date order. *)
Lemma extract_loop_sorted (a : Account) :
  forall (txns : list txn_t) (cashflows cashflows' : Dict.t (list cashflow_t))
         (ds : list date),
    StronglySorted (fun x y => t_date x <= t_date y) txns ->
    for_each (extract_entry asset_account_map price_map currency'
                            start_date_inclusive end_date_inclusive)
             txns cashflows = Ok cashflows' ->
    txn_bucket start_date_inclusive end_date_inclusive
               (get_list cashflows a) ds ->
    Forall (fun d => Forall (fun t => d <= t_date t) txns) ds ->
    exists ds',
      txn_bucket start_date_inclusive end_date_inclusive
                 (get_list cashflows' a) ds'.
Proof.
  induction txns as [|t txns IH]; simpl;
    intros cashflows cashflows' ds Hsorted H Hb Hle.
  - inversion H; subst. eauto.
  - apply bind_ok_inv in H as (cashflows1 & H1 & H2).
    inversion Hsorted as [|? ? Hsorted' Hhead]; subst.
    destruct (extract_entry_lists t cashflows cashflows1 a H1)
      as (new & Hnew & Hall).
    destruct Hb as (Hdates & Hds & Hwin & Hkind).
    apply (IH cashflows1 cashflows'
              (ds ++ List.map (fun _ => t_date t) new)%list Hsorted' H2).
    + rewrite Hnew. repeat split.
      * rewrite !map_app, Hdates. f_equal.
        rewrite map_map. apply map_ext_in. intros c Hc.
        rewrite Forall_forall in Hall. apply (Hall c Hc).
      * apply StronglySorted_app; [exact Hds | |].
        -- clear. induction new; simpl; constructor; auto.
           apply Forall_forall. intros x Hx. apply in_map_iff in Hx as (? & <- & _).
           lia.
        -- intros x y Hx Hy. apply in_map_iff in Hy as (? & <- & _).
           rewrite Forall_forall in Hle. specialize (Hle x Hx).
           now inversion Hle.
      * apply Forall_app. split; [exact Hwin|].
        apply Forall_forall. intros x Hx. apply in_map_iff in Hx as (c & <- & Hc).
        rewrite Forall_forall in Hall. apply (Hall c Hc).
      * apply Forall_app. split; [exact Hkind|].
        eapply Forall_impl; [|exact Hall]. intros c Hc. apply Hc.
    + apply Forall_app. split.
      * eapply Forall_impl; [|exact Hle]. intros d Hd. now inversion Hd.
      * apply Forall_forall. intros x Hx. apply in_map_iff in Hx as (? & <- & _).
        exact Hhead.
Qed.

(** Whatever the order of the ledger, every bucket of the loop holds
    transaction cashflows dated inside the window. *)
Lemma extract_loop_dated (a : Account) :
  forall (txns : list txn_t) (cashflows cashflows' : Dict.t (list cashflow_t)),
    for_each (extract_entry asset_account_map price_map currency'
                            start_date_inclusive end_date_inclusive)
             txns cashflows = Ok cashflows' ->
    Forall (fun c => exists d, txn_dated start_date_inclusive
                                         end_date_inclusive d c)
           (get_list cashflows a) ->
    Forall (fun c => exists d, txn_dated start_date_inclusive
                                         end_date_inclusive d c)
           (get_list cashflows' a).
Proof.
  induction txns as [|t txns IH]; simpl; intros cashflows cashflows' H Hall.
  - inversion H; subst. exact Hall.
  - apply bind_ok_inv in H as (cashflows1 & H1 & H2).
    apply (IH cashflows1 cashflows' H2).
    destruct (extract_entry_lists t cashflows cashflows1 a H1)
      as (new & -> & Hnew).
    apply Forall_app. split; [exact Hall|].
    eapply Forall_impl; [|exact Hnew]. intros c Hc. eauto.
Qed.

End TransactionCashflows.

(** ** The result of [get_cashflows_by_asset_account] *)

Section ResultFacts.
Context {RE : RegexEngine} {BC : Beancount}.
Variable entries : list entry_t.
Variable asset_account_map : list (string * string).
Variables start_date_inclusive end_date_inclusive : option date.
Variable currency' : Currency.

Lemma filter_txns_sorted (es : list entry_t) :
  chronological es ->
  StronglySorted (fun x y => t_date x <= t_date y) (filter_txns es).
Proof.
  unfold chronological.
  induction es as [|e es IH]; simpl; intros H; [constructor|].
  inversion H as [|? ? Hs Hf]; subst.
  destruct e as [t|d body]; [|auto].
  constructor; [auto|]. clear - Hf.
  induction es as [|e es IH]; simpl; [constructor|].
  inversion Hf; subst. destruct e; [constructor|]; auto.
Qed.

Lemma transaction_cashflows_dated (txns : Dict.t (list cashflow_t)) (a : Account) :
  transaction_cashflows entries asset_account_map start_date_inclusive
                        end_date_inclusive currency' = Ok txns ->
  Forall (fun c => exists d, txn_dated start_date_inclusive
                                       end_date_inclusive d c)
         (get_list txns a).
Proof.
  intros H. eapply extract_loop_dated; [exact H|]. constructor.
Qed.

Lemma transaction_cashflows_sorted (txns : Dict.t (list cashflow_t)) (a : Account) :
  chronological entries ->
  transaction_cashflows entries asset_account_map start_date_inclusive
                        end_date_inclusive currency' = Ok txns ->
  exists ds, txn_bucket start_date_inclusive end_date_inclusive
                        (get_list txns a) ds.
Proof.
  intros Hchron H.
  eapply (extract_loop_sorted _ _ _ _ _ a _ _ _ []);
    [apply filter_txns_sorted, Hchron | exact H | | constructor].
  repeat split; constructor.
Qed.

Lemma ending_cutoff_inv (cutoff : option date) :
  ending_cutoff end_date_inclusive = Ok cutoff ->
  cutoff = match end_date_inclusive with
           | Some e => Some (e + 1)
           | None => None
           end.
Proof.
  unfold ending_cutoff, plus_one_day. destruct end_date_inclusive as [e|].
  - destruct (e <? date_max); simpl; [now intros [= <-] | discriminate].
  - now intros [= <-].
Qed.

(** A bucket of the result is the bucket of the transaction cashflows with
    its starting balance, if any, in front and its ending balance, if any,
    behind. *)
Lemma bucket_decomposition (m : Dict.t (list cashflow_t)) :
  get_cashflows_by_asset_account entries asset_account_map
    start_date_inclusive end_date_inclusive currency' = Ok m ->
  exists txns sv ev,
    transaction_cashflows entries asset_account_map start_date_inclusive
                          end_date_inclusive currency' = Ok txns /\
    match start_date_inclusive with
    | Some s => market_values_at entries asset_account_map (Some s) currency'
                = Ok sv
    | None => sv = Dict.empty
    end /\
    ending_market_values entries asset_account_map end_date_inclusive
                         currency' = Ok ev /\
    forall a l, Dict.lookup a m = Some l ->
      l = (match start_date_inclusive with
           | Some s => starting_part sv s a
           | None => []
           end ++ get_list txns a ++ ending_part ev end_date_inclusive a)%list.
Proof.
  intros H.
  apply get_cashflows_by_asset_account_inv in H
    as (txns & mid & ev & Htxns & Hmid & Hev & Hm).
  assert (Hstart : exists sv,
             match start_date_inclusive with
             | Some s => market_values_at entries asset_account_map (Some s)
                                          currency' = Ok sv
             | None => sv = Dict.empty
             end /\
             forall a, Dict.lookup a mid =
                       match match start_date_inclusive with
                             | Some s => starting_part sv s a
                             | None => []
                             end with
                       | [] => Dict.lookup a txns
                       | sp => Some (sp ++ get_list txns a)%list
                       end).
  { destruct start_date_inclusive as [s|].
    - destruct Hmid as (sv & Hsv & Hlk). exists sv. split; [exact Hsv|].
      intros a. rewrite Hlk. unfold starting_part.
      destruct (Dict.lookup a sv); reflexivity.
    - subst mid. exists Dict.empty. split; reflexivity. }
  destruct Hstart as (sv & Hsv & Hlk).
  exists txns, sv, ev. repeat split; try assumption.
  intros a l Hl. rewrite Hm in Hl. unfold ending_part.
  assert (Hget : get_list mid a =
                 (match start_date_inclusive with
                  | Some s => starting_part sv s a
                  | None => []
                  end ++ get_list txns a)%list).
  { unfold get_list at 1. rewrite Hlk.
    destruct (match start_date_inclusive with
              | Some s => starting_part sv s a
              | None => []
              end); reflexivity. }
  destruct (Dict.lookup a ev) as [v|].
  - inversion Hl; subst l. rewrite Hget, <- app_assoc. reflexivity.
  - rewrite app_nil_r, <- Hget. symmetry. now apply get_list_lookup.
Qed.

End ResultFacts.

(** ** Boundary cashflows (C1, C2) *)

Section BoundaryTheorems.
Context {RE : RegexEngine} {BC : Beancount}.

(** C1: a starting-balance cashflow is put in front of a bucket only when
    [start_date_inclusive] is supplied: without it no bucket holds one;
    with it, every bucket of the valuation at [start_date_inclusive], made
    from the entries dated strictly before it, begins with the cashflow of
    kind starting balance, dated at the start, whose amount is that market
    value.  Whether or not start and end are supplied, every bucket of the
    ending valuation, whose cutoff is the day after [end_date_inclusive] or
    absent with it, ends with the cashflow of kind ending balance, dated
    [end_date_inclusive], whose amount is the negated market value. *)
Theorem boundary_cashflows_inserted
        (entries : list entry_t) (asset_account_map : list (string * string))
        (start_date_inclusive end_date_inclusive : option date)
        (currency' : Currency) (m : Dict.t (list cashflow_t)) :
  get_cashflows_by_asset_account entries asset_account_map
    start_date_inclusive end_date_inclusive currency' = Ok m ->
  (start_date_inclusive = None ->
   forall a l c, Dict.lookup a m = Some l -> In c l ->
                 kind c <> starting_balance) /\
  (forall s, start_date_inclusive = Some s ->
     exists sv,
       get_market_values_by_asset_account
         (filter (fun e => entry_date e <? s) entries)
         (compile_map asset_account_map) None
         (build_price_map entries) currency' = Ok sv /\
       forall a v, Dict.lookup a sv = Some v ->
         exists rest,
           Dict.lookup a m =
           Some ({| cf_date := Some s; amount := v; kind := starting_balance;
                    inflow_accounts := []; outflow_accounts := [];
                    entry := None |} :: rest)) /\
  (exists ev,
     get_market_values_by_asset_account
       entries (compile_map asset_account_map)
       match end_date_inclusive with
       | Some e => Some (e + 1)
       | None => None
       end
       (build_price_map entries) currency' = Ok ev /\
     forall a v, Dict.lookup a ev = Some v ->
       exists front,
         Dict.lookup a m =
         Some (front ++
               [{| cf_date := end_date_inclusive; amount := (- v)%Q;
                   kind := ending_balance; inflow_accounts := [];
                   outflow_accounts := []; entry := None |}])%list).
Proof.
  intros H.
  pose proof (bucket_decomposition _ _ _ _ _ _ H)
    as (txns0 & sv0 & ev0 & Htxns0 & _ & _ & Hdec).
  apply get_cashflows_by_asset_account_inv in H
    as (txns & mid & ev & Htxns & Hmid & Hev & Hm).
  split; [|split].
  - intros -> a l c Hl Hc. rewrite (Hdec a l Hl) in Hc. simpl in Hc.
    apply in_app_or in Hc as [Hc|Hc].
    + pose proof (transaction_cashflows_dated _ _ _ _ _ _ a Htxns0) as Hall.
      rewrite Forall_forall in Hall.
      destruct (Hall c Hc) as (d & Hk & _). congruence.
    + unfold ending_part in Hc. destruct (Dict.lookup a ev0); [|contradiction].
      destruct Hc as [<-|[]]. discriminate.
  - intros s ->. destruct Hmid as (sv & Hsv & Hlk).
    exists sv. split; [exact Hsv|]. intros a v Hv.
    specialize (Hlk a). rewrite Hv in Hlk.
    rewrite Hm. destruct (Dict.lookup a ev) as [w|].
    + eexists. unfold get_list. rewrite Hlk. reflexivity.
    + eexists. exact Hlk.
  - exists ev. split.
    + unfold ending_market_values in Hev.
      apply bind_ok_inv in Hev as (cutoff & Hcut & Hev).
      apply ending_cutoff_inv in Hcut. subst cutoff. exact Hev.
    + intros a v Hv. rewrite Hm, Hv. eexists. reflexivity.
Qed.

(** C2, as the code has it: with a start date, a bucket begins with a
    starting balance, dated at the start and equal to its market value at
    the start, exactly when the starting valuation has an entry for it, and
    holds no starting balance otherwise; a bucket ends with an ending
    balance, dated [end_date_inclusive] and equal to the negation of its
    ending market value, exactly when the ending valuation has an entry for
    it, and holds no ending balance otherwise. *)
Theorem boundary_invariant_where_valued
        (entries : list entry_t) (asset_account_map : list (string * string))
        (start_date_inclusive end_date_inclusive : option date)
        (currency' : Currency) (m : Dict.t (list cashflow_t)) :
  get_cashflows_by_asset_account entries asset_account_map
    start_date_inclusive end_date_inclusive currency' = Ok m ->
  (forall s, start_date_inclusive = Some s ->
     exists sv,
       market_values_at entries asset_account_map (Some s) currency' = Ok sv /\
       forall a l, Dict.lookup a m = Some l ->
         match Dict.lookup a sv with
         | Some v =>
             exists c rest, l = c :: rest /\ kind c = starting_balance /\
                            cf_date c = Some s /\ amount c = v
         | None => forall c, In c l -> kind c <> starting_balance
         end) /\
  (exists ev,
     ending_market_values entries asset_account_map end_date_inclusive
                          currency' = Ok ev /\
     forall a l, Dict.lookup a m = Some l ->
       match Dict.lookup a ev with
       | Some v =>
           exists front c, l = (front ++ [c])%list /\ kind c = ending_balance /\
                           cf_date c = end_date_inclusive /\
                           amount c = (- v)%Q
       | None => forall c, In c l -> kind c <> ending_balance
       end).
Proof.
  intros H.
  apply bucket_decomposition in H
    as (txns & sv & ev & Htxns & Hsv & Hev & Hdec).
  assert (Htxn : forall a c, In c (get_list txns a) -> kind c = txn).
  { intros a c Hc.
    pose proof (transaction_cashflows_dated _ _ _ _ _ _ a Htxns) as Hall.
    rewrite Forall_forall in Hall. destruct (Hall c Hc) as (d & Hk & _).
    exact Hk. }
  split.
  - intros s ->. exists sv. split; [exact Hsv|]. intros a l Hl.
    rewrite (Hdec a l Hl). unfold starting_part, ending_part.
    destruct (Dict.lookup a sv) as [v|].
    + do 2 eexists. split; [reflexivity|]. repeat split.
    + simpl. intros c Hc. apply in_app_or in Hc as [Hc|Hc].
      * rewrite (Htxn a c Hc). discriminate.
      * destruct (Dict.lookup a ev); [|contradiction].
        destruct Hc as [<-|[]]. discriminate.
  - exists ev. split; [exact Hev|]. intros a l Hl.
    rewrite (Hdec a l Hl). unfold ending_part.
    destruct (Dict.lookup a ev) as [v|].
    + exists (match start_date_inclusive with
              | Some s => starting_part sv s a
              | None => []
              end ++ get_list txns a)%list, (ending_cashflow end_date_inclusive v).
      rewrite <- app_assoc. repeat split.
    + rewrite !app_nil_r. intros c Hc. apply in_app_or in Hc as [Hc|Hc].
      * destruct start_date_inclusive; [|contradiction].
        unfold starting_part in Hc. destruct (Dict.lookup a sv); [|contradiction].
        destruct Hc as [<-|[]]. discriminate.
      * rewrite (Htxn a c Hc). discriminate.
Qed.

End BoundaryTheorems.

(** The result of the extraction on the sample ledger, from day 3 to day
    10. *)
Lemma sample_extraction :
  get_cashflows_by_asset_account (RE := literal_engine) (BC := plain_ledger)
    Sample.ledger Sample.accounts (Some 3) (Some 10) "USD" =
  Ok [("Assets:Broker",
       [{| cf_date := Some 5; amount := (0 + (100 # 1))%Q; kind := txn;
           inflow_accounts := ["Income:Salary"]; outflow_accounts := [];
           entry := Some Sample.salary |};
        ending_cashflow (Some 10) (0 + (100 # 1))%Q]);
      ("Assets",
       [{| cf_date := Some 5; amount := (0 + (100 # 1))%Q; kind := txn;
           inflow_accounts := ["Income:Salary"]; outflow_accounts := [];
           entry := Some Sample.salary |}]);
      ("Assets:Bank",
       [starting_cashflow 3 (0 + (-50 # 1))%Q;
        ending_cashflow (Some 10) (0 + (-50 # 1))%Q])].
Proof. vm_compute. reflexivity. Qed.

(** C1 on the sample ledger: the overdrawn bank account begins with its
    starting balance and the brokerage account ends with its ending
    balance; without a start date no bucket holds a starting balance. *)
Lemma boundary_cashflows_witness :
  (exists m,
      get_cashflows_by_asset_account (RE := literal_engine) (BC := plain_ledger)
        Sample.ledger Sample.accounts (Some 3) (Some 10) "USD" = Ok m /\
      (exists rest,
          Dict.lookup "Assets:Bank" m =
          Some (starting_cashflow 3 (0 + (-50 # 1))%Q :: rest)) /\
      (exists front,
          Dict.lookup "Assets:Broker" m =
          Some (front ++ [ending_cashflow (Some 10) (0 + (100 # 1))%Q])%list)) /\
  (exists m,
      get_cashflows_by_asset_account (RE := literal_engine) (BC := plain_ledger)
        Sample.ledger Sample.accounts None (Some 10) "USD" = Ok m /\
      forall a l c, Dict.lookup a m = Some l -> In c l ->
                    kind c <> starting_balance).
Proof.
  split.
  - eexists. split; [exact sample_extraction|].
    destruct (boundary_cashflows_inserted
                (RE := literal_engine) (BC := plain_ledger)
                _ _ _ _ _ _ sample_extraction) as (_ & Hs & He).
    split.
    + destruct (Hs 3 eq_refl) as (sv & Hsv & Hall).
      apply Hall. vm_compute in Hsv. injection Hsv as <-. reflexivity.
    + destruct He as (ev & Hev & Hall).
      apply Hall. vm_compute in Hev. injection Hev as <-. reflexivity.
  - destruct (get_cashflows_by_asset_account
                (RE := literal_engine) (BC := plain_ledger)
                Sample.ledger Sample.accounts None (Some 10) "USD")
      as [m|e] eqn:E; [|vm_compute in E; discriminate].
    exists m. split; [reflexivity|].
    exact (proj1 (boundary_cashflows_inserted
                    (RE := literal_engine) (BC := plain_ledger)
                    _ _ _ _ _ _ E) eq_refl).
Defined.

(** C2 fails on the sample ledger, in each of its parts: the bucket
    [Assets:Broker], opened inside the window, begins with a transaction
    cashflow although a start date is supplied; the starting balance of the
    overdrawn [Assets:Bank] is negative; the bucket [Assets], an ancestor,
    ends with a transaction cashflow. *)
Lemma boundary_claim_fails :
  ~ boundary_claim (RE := literal_engine) (BC := plain_ledger)
      Sample.ledger Sample.accounts (Some 3) (Some 10) "USD" /\
  exists m,
    get_cashflows_by_asset_account (RE := literal_engine) (BC := plain_ledger)
      Sample.ledger Sample.accounts (Some 3) (Some 10) "USD" = Ok m /\
    ~ begins_with_starting_balance 3 m /\
    ~ first_amounts_non_negative m /\
    ~ ends_with_ending_balance (RE := literal_engine) (BC := plain_ledger)
        Sample.ledger Sample.accounts (Some 10) "USD" m.
Proof.
  assert (Hbegin : forall m,
             get_cashflows_by_asset_account
               (RE := literal_engine) (BC := plain_ledger)
               Sample.ledger Sample.accounts (Some 3) (Some 10) "USD" = Ok m ->
             ~ begins_with_starting_balance 3 m).
  { intros m Hm H. rewrite sample_extraction in Hm. injection Hm as <-.
    edestruct (H "Assets:Broker") as (c & rest & Hl & Hk & _);
      [reflexivity | discriminate |].
    injection Hl as <- _. discriminate. }
  split.
  - intros H. specialize (H _ sample_extraction). destruct H as [Hs _].
    exact (Hbegin _ sample_extraction (proj1 (Hs 3 eq_refl))).
  - eexists. split; [exact sample_extraction|]. split; [|split].
    + apply Hbegin, sample_extraction.
    + intros H. specialize (H "Assets:Bank" _ _ eq_refl).
      revert H. simpl. apply Qlt_not_le. reflexivity.
    + intros H. destruct (H "Assets" _ eq_refl) as (front & c & Hl & Hk & _).
      destruct front as [|c0 [|c1 front]]; simpl in Hl; try discriminate.
      injection Hl as <-. discriminate.
Qed.

(** C2 as amended, on the sample ledger. *)
Lemma boundary_invariant_witness :
  exists m,
    get_cashflows_by_asset_account (RE := literal_engine) (BC := plain_ledger)
      Sample.ledger Sample.accounts (Some 3) (Some 10) "USD" = Ok m /\
    exists ev,
      ending_market_values (RE := literal_engine) (BC := plain_ledger)
        Sample.ledger Sample.accounts (Some 10) "USD" = Ok ev /\
      forall a l, Dict.lookup a m = Some l ->
        match Dict.lookup a ev with
        | Some v =>
            exists front c, l = (front ++ [c])%list /\
                            kind c = ending_balance /\
                            cf_date c = Some 10 /\ amount c = (- v)%Q
        | None => forall c, In c l -> kind c <> ending_balance
        end.
Proof.
  eexists. split; [exact sample_extraction|].
  exact (proj2 (boundary_invariant_where_valued
                  (RE := literal_engine) (BC := plain_ledger)
                  _ _ _ _ _ _ sample_extraction)).
Defined.

(** ** Date order (C6) *)

Lemma in_window_bounds (s e d : date) :
  in_window (Some s) (Some e) d = true -> s <= d <= e.
Proof.
  unfold in_window. intros H. apply andb_prop in H as [H1 H2]. lia.
Qed.

Section DateOrder.
Context {RE : RegexEngine} {BC : Beancount}.

(** C6, as the code has it: for a window whose start is not after its end,
    over entries in chronological order, every bucket of the result is in
    non-decreasing date order, its starting balance dated at the start and
    its ending balance dated at the end of the window. *)
Theorem buckets_in_date_order
        (entries : list entry_t) (asset_account_map : list (string * string))
        (s e : date) (currency' : Currency) :
  s <= e ->
  date_order_claim entries asset_account_map s e currency'.
Proof.
  intros Hse Hchron m H a l Hl.
  apply bucket_decomposition in H
    as (txns & sv & ev & Htxns & Hsv & Hev & Hdec).
  destruct (transaction_cashflows_sorted _ _ _ _ _ _ a Hchron Htxns)
    as (ds & Hdates & Hsorted & Hwin & Hkind).
  rewrite (Hdec a l Hl). clear Hdec Hl.
  assert (Hbounds : Forall (fun d => s <= d <= e) ds).
  { eapply Forall_impl; [|exact Hwin]. intros d. apply in_window_bounds. }
  rewrite Forall_forall in Hbounds, Hkind.
  set (sp := starting_part sv s a). set (ep := ending_part ev (Some e) a).
  assert (Hsp : (sp = [] \/ exists v, sp = [starting_cashflow s v]))
    by (unfold sp, starting_part; destruct (Dict.lookup a sv); eauto).
  assert (Hep : (ep = [] \/ exists v, ep = [ending_cashflow (Some e) v]))
    by (unfold ep, ending_part; destruct (Dict.lookup a ev); eauto).
  split; [|split].
  - exists (List.map (fun _ => s) sp ++ ds ++ List.map (fun _ => e) ep)%list.
    split.
    + rewrite !map_app, Hdates, !map_map. f_equal; [|f_equal].
      * destruct Hsp as [->|[v ->]]; reflexivity.
      * destruct Hep as [->|[v ->]]; reflexivity.
    + apply StronglySorted_app; [| apply StronglySorted_app |].
      * destruct Hsp as [->|[v ->]]; simpl; repeat constructor.
      * exact Hsorted.
      * destruct Hep as [->|[v ->]]; simpl; repeat constructor.
      * intros x y Hx Hy. apply in_map_iff in Hy as (? & <- & _).
        apply (Hbounds x Hx).
      * intros x y Hx Hy. apply in_map_iff in Hx as (? & <- & _).
        apply in_app_or in Hy as [Hy|Hy].
        -- apply (Hbounds y Hy).
        -- apply in_map_iff in Hy as (? & <- & _). exact Hse.
  - intros c Hc Hk. apply in_app_or in Hc as [Hc|Hc].
    + destruct Hsp as [Hnil|[v Hv]]; rewrite ?Hnil, ?Hv in Hc;
        [contradiction|]. destruct Hc as [<-|[]]. reflexivity.
    + apply in_app_or in Hc as [Hc|Hc].
      * rewrite (Hkind c Hc) in Hk. discriminate.
      * destruct Hep as [Hnil|[v Hv]]; rewrite ?Hnil, ?Hv in Hc;
          [contradiction|]. destruct Hc as [<-|[]]. discriminate.
  - intros c Hc Hk. apply in_app_or in Hc as [Hc|Hc].
    + destruct Hsp as [Hnil|[v Hv]]; rewrite ?Hnil, ?Hv in Hc;
        [contradiction|]. destruct Hc as [<-|[]]. discriminate.
    + apply in_app_or in Hc as [Hc|Hc].
      * rewrite (Hkind c Hc) in Hk. discriminate.
      * destruct Hep as [Hnil|[v Hv]]; rewrite ?Hnil, ?Hv in Hc;
          [contradiction|]. destruct Hc as [<-|[]]. reflexivity.
Qed.

End DateOrder.

Lemma sample_chronological : chronological (BC := plain_ledger) Sample.ledger.
Proof.
  unfold chronological, Sample.ledger. repeat constructor. simpl. lia.
Qed.

(** The extraction on the sample ledger for the window from day 10 back to
    day 2. *)
Lemma sample_extraction_backwards :
  get_cashflows_by_asset_account (RE := literal_engine) (BC := plain_ledger)
    Sample.ledger Sample.accounts (Some 10) (Some 2) "USD" =
  Ok [("Assets:Bank",
       [starting_cashflow 10 (0 + (-50 # 1))%Q;
        ending_cashflow (Some 2) (0 + (-50 # 1))%Q]);
      ("Assets:Broker", [starting_cashflow 10 (0 + (100 # 1))%Q])].
Proof. vm_compute. reflexivity. Qed.

(** C6 fails when the supplied start is after the supplied end: the bucket
    [Assets:Bank] then holds a starting balance dated day 10 followed by an
    ending balance dated day 2. *)
Lemma date_order_claim_fails :
  ~ date_order_claim (RE := literal_engine) (BC := plain_ledger)
      Sample.ledger Sample.accounts 10 2 "USD".
Proof.
  intros H.
  destruct (H sample_chronological _ sample_extraction_backwards
              "Assets:Bank" _ eq_refl) as [(ds & Hds & Hsorted) _].
  destruct ds as [|d1 [|d2 [|d3 ds]]]; try discriminate.
  injection Hds as <- <-.
  inversion Hsorted as [|? ? _ Hall]; subst.
  inversion Hall; subst. lia.
Qed.

(** C6 as amended, on the sample ledger and the window from day 3 to
    day 10. *)
Lemma buckets_in_date_order_witness :
  3 <= 10 /\
  chronological (BC := plain_ledger) Sample.ledger /\
  (exists m,
      get_cashflows_by_asset_account (RE := literal_engine) (BC := plain_ledger)
        Sample.ledger Sample.accounts (Some 3) (Some 10) "USD" = Ok m) /\
  date_order_claim (RE := literal_engine) (BC := plain_ledger)
    Sample.ledger Sample.accounts 3 10 "USD".
Proof.
  split; [lia|]. split; [exact sample_chronological|].
  split; [eexists; exact sample_extraction|].
  apply (buckets_in_date_order (RE := literal_engine) (BC := plain_ledger)).
  lia.
Defined.

(** ** Integrity faults (C8) *)

Lemma for_each_raise_inv {A S : Type} (body : S -> A -> result S)
      (P : exn -> Prop) (xs : list A) :
  (forall s x e, In x xs -> body s x = Raise e -> P e) ->
  forall s e, for_each body xs s = Raise e -> P e.
Proof.
  induction xs as [|x xs IH]; simpl; intros Hstep s e H; [discriminate|].
  destruct (body s x) as [s'|e'] eqn:E; simpl in H.
  - eapply IH; eauto.
  - inversion H; subst. eauto.
Qed.

Lemma for_each_ok {A S : Type} (body : S -> A -> result S) (xs : list A) :
  (forall s x, In x xs -> exists s', body s x = Ok s') ->
  forall s, exists s', for_each body xs s = Ok s'.
Proof.
  induction xs as [|x xs IH]; simpl; intros Hstep s; [eauto|].
  destruct (Hstep s x (or_introl eq_refl)) as [s' ->]. simpl.
  apply IH. intros; apply Hstep; auto.
Qed.

(** A loop raises what its body raises at an element when it raises that
    same exception, if any, at the elements before it. *)
Lemma for_each_raises_at {A S : Type} (body : S -> A -> result S) (e : exn)
      (xs : list A) (x : A) :
  In x xs ->
  (forall s, body s x = Raise e) ->
  (forall s y e', body s y = Raise e' -> e' = e) ->
  forall s, for_each body xs s = Raise e.
Proof.
  intros Hin Hx Hother.
  induction xs as [|y xs IH]; simpl; intros s; [contradiction|].
  destruct (body s y) as [s'|e'] eqn:E; simpl.
  - destruct Hin as [->|Hin]; [rewrite Hx in E; discriminate | auto].
  - f_equal. eauto.
Qed.

Section IntegrityFacts.
Context {RE : RegexEngine} {BC : Beancount}.
Variable asset_account_map : list (Pattern * string).
Variable price_map : PriceMap.
Variable currency' : Currency.
Variables start_date_inclusive end_date_inclusive : option date.

Lemma accumulate_posting_raise_inv (entry' : txn_t)
      (pending : Dict.t cashflow_t) (posting : Posting) (e : exn) :
  accumulate_posting asset_account_map price_map currency' entry' pending
                     posting = Raise e ->
  e = NameError "converted".
Proof.
  unfold accumulate_posting, posting_value.
  destruct (get_number _ currency') as [v|e'] eqn:E; simpl.
  - destruct (get_asset_account _ _); discriminate.
  - intros [= <-]. now apply get_number_raise_inv in E.
Qed.

Lemma extract_entry_raise_inv (cashflows : Dict.t (list cashflow_t))
      (entry' : txn_t) (e : exn) :
  extract_entry asset_account_map price_map currency' start_date_inclusive
                end_date_inclusive cashflows entry' = Raise e ->
  e = NameError "converted".
Proof.
  unfold extract_entry, pending_cashflows.
  destruct (negb _); [discriminate|].
  destruct (for_each _ _ _) as [pending|e'] eqn:E; simpl; [discriminate|].
  intros [= <-].
  eapply (for_each_raise_inv _ (fun e => e = NameError "converted"));
    [|exact E].
  intros s x e _. apply accumulate_posting_raise_inv.
Qed.

(** A posting of a transaction in the window whose converted amount is in
    another currency makes the loop over the transactions raise. *)
Lemma extract_loop_raises (txns : list txn_t) (t : txn_t) (p : Posting) :
  In t txns ->
  in_window start_date_inclusive end_date_inclusive (t_date t) = true ->
  In p (t_postings t) ->
  currency (convert_amount (get_weight p) currency' price_map (t_date t))
    <> currency' ->
  forall cashflows,
    for_each (extract_entry asset_account_map price_map currency'
                            start_date_inclusive end_date_inclusive)
             txns cashflows = Raise (NameError "converted").
Proof.
  intros Ht Hwin Hp Hcur.
  apply (for_each_raises_at _ _ _ t Ht).
  - intros s. unfold extract_entry, pending_cashflows. rewrite Hwin. simpl.
    rewrite (for_each_raises_at _ (NameError "converted") _ p Hp); [reflexivity| |].
    + intros s0. unfold accumulate_posting, posting_value.
      now rewrite (get_number_other_currency _ _ Hcur).
    + intros s0 y e'. apply accumulate_posting_raise_inv.
  - intros s y e'. apply extract_entry_raise_inv.
Qed.

(** When every posting of the transactions in the window converts to the
    requested currency, the loop over the transactions returns. *)
Lemma extract_loop_ok (txns : list txn_t) :
  (forall t p, In t txns ->
     in_window start_date_inclusive end_date_inclusive (t_date t) = true ->
     In p (t_postings t) ->
     currency (convert_amount (get_weight p) currency' price_map (t_date t))
     = currency') ->
  forall cashflows, exists cashflows',
    for_each (extract_entry asset_account_map price_map currency'
                            start_date_inclusive end_date_inclusive)
             txns cashflows = Ok cashflows'.
Proof.
  intros Hall. apply for_each_ok. intros s t Ht. unfold extract_entry.
  destruct (in_window _ _ (t_date t)) eqn:Hwin; simpl; [|eauto].
  unfold pending_cashflows.
  destruct (for_each_ok
              (accumulate_posting asset_account_map price_map currency' t)
              (t_postings t)) with (s := @Dict.empty cashflow_t)
    as [pending ->]; [|simpl; eauto].
  intros s0 p Hp. unfold accumulate_posting, posting_value.
  rewrite (get_number_ok _ _ (Hall t p Ht Hwin Hp)). simpl.
  destruct (get_asset_account _ _); eauto.
Qed.

(** A valuation whose converted positions are all in the requested currency
    does not raise the error of [get_number]. *)
Lemma market_values_no_name_error (entries : list entry_t)
      (cutoff : option date) :
  (forall ra pos,
     In ra (iter_children (realize (entries_before cutoff entries))) ->
     In pos (reduce_convert_position (compute_balance ra) currency' price_map) ->
     currency (units pos) = currency') ->
  forall name,
    get_market_values_by_asset_account entries asset_account_map cutoff
                                       price_map currency'
    <> Raise (NameError name).
Proof.
  intros Hall name H.
  unfold get_market_values_by_asset_account in H.
  refine (for_each_raise_inv _ (fun e => forall name, e <> NameError name)
                             _ _ _ _ H name eq_refl).
  intros s ra e Hra. unfold market_value_step.
  destruct (negb _); [discriminate|].
  destruct (get_asset_account _ _); [|discriminate].
  destruct (reduce_convert_position _ _ _) as [|pos [|pos' inv]] eqn:E;
    simpl; try discriminate.
  - rewrite (get_number_ok (units pos) currency')
      by (apply (Hall ra pos Hra); rewrite E; now left).
    simpl. discriminate.
  - intros [= <-]. discriminate.
Qed.

End IntegrityFacts.

Ltac destruct_valuation E :=
  match goal with
  | |- context [get_market_values_by_asset_account ?a ?b ?c ?d ?e] =>
      destruct (get_market_values_by_asset_account a b c d e) eqn:E
  end.

Section IntegrityTheorem.
Context {RE : RegexEngine} {BC : Beancount}.


End IntegrityTheorem.

(** Every valuation of the sample ledger holds dollars only. *)
Lemma sample_positions_in_dollars (cutoff : option date)
      (ra : Plain.real_account) (pos : Position) :
  In ra (@iter_children plain_ledger
           (realize (entries_before cutoff Sample.ledger))) ->
  In pos (@reduce_convert_position plain_ledger
            (compute_balance ra) "USD" tt) ->
  currency (units pos) = "USD".
Proof.
  intros Hra Hpos.
  assert (Hcases :
            entries_before (BC := plain_ledger) cutoff Sample.ledger = [] \/
            entries_before (BC := plain_ledger) cutoff Sample.ledger
            = [Txn Sample.groceries] \/
            entries_before (BC := plain_ledger) cutoff Sample.ledger
            = [Txn Sample.salary] \/
            entries_before (BC := plain_ledger) cutoff Sample.ledger
            = Sample.ledger).
  { destruct cutoff as [d|]; [|auto]. unfold entries_before, Sample.ledger.
    cbn [filter entry_date Sample.groceries Sample.salary t_date].
    destruct (1 <? d), (5 <? d); auto. }
  destruct Hcases as [E|[E|[E|E]]]; rewrite E in Hra; clear E;
    vm_compute in Hra;
    repeat (destruct Hra as [<-|Hra];
            [vm_compute in Hpos;
             repeat (destruct Hpos as [<-|Hpos]; [reflexivity|]);
             contradiction|]);
    contradiction.
Qed.


(** ** The placeholder bucket (C9) *)

Section PlaceholderFacts.
Context {RE : RegexEngine} {BC : Beancount}.

Lemma emit_fold_nonempty (asset_account_map : list (Pattern * string))
      (entry' : txn_t) :
  forall (pending : Dict.t cashflow_t) (cashflows : Dict.t (list cashflow_t)),
    (forall a l, Dict.lookup a cashflows = Some l -> l <> []) ->
    forall a l,
      Dict.lookup a (fold_left (emit_pending asset_account_map entry') pending
                               cashflows) = Some l ->
      l <> [].
Proof.
  induction pending as [|[k c] pending IH]; simpl; intros cashflows H;
    [exact H|].
  apply IH. destruct (nonzero _); [|exact H].
  intros a l. destruct (String.eqb a k) eqn:E.
  - apply String.eqb_eq in E; subst a. rewrite lookup_update_eq.
    intros [= <-]. now destruct (match Dict.lookup k cashflows with
                                  | Some v => v | None => [] end).
  - apply String.eqb_neq in E. rewrite lookup_update_ne by assumption.
    apply H.
Qed.

(** No bucket of the result is empty: [get_cashflows] raises or returns a
    list with a cashflow in it, never the empty list. *)
Lemma buckets_not_empty
      (entries : list entry_t) (asset_account_map : list (string * string))
      (start_date_inclusive end_date_inclusive : option date)
      (currency' : Currency) (m : Dict.t (list cashflow_t)) :
  get_cashflows_by_asset_account entries asset_account_map
    start_date_inclusive end_date_inclusive currency' = Ok m ->
  forall a l, Dict.lookup a m = Some l -> l <> [].
Proof.
  intros H a l Hl.
  apply get_cashflows_by_asset_account_inv in H
    as (txns & mid & ev & Htxns & Hmid & _ & Hm).
  assert (Htx : forall a l, Dict.lookup a txns = Some l -> l <> []).
  { revert Htxns. unfold transaction_cashflows.
    apply (for_each_invariant
             _ (fun d : Dict.t (list cashflow_t) =>
                  forall a l, Dict.lookup a d = Some l -> l <> []));
      [|discriminate].
    intros d t d' Hd. unfold extract_entry.
    destruct (negb _); [now intros [= <-]|].
    destruct (pending_cashflows _ _ _ t); simpl; [|discriminate].
    intros [= <-]. now apply emit_fold_nonempty. }
  assert (Hmd : forall a l, Dict.lookup a mid = Some l -> l <> []).
  { intros b lb. destruct start_date_inclusive as [s|].
    - destruct Hmid as (sv & _ & Hlk). rewrite Hlk.
      destruct (Dict.lookup b sv); [intros [= <-]; discriminate | apply Htx].
    - subst mid. apply Htx. }
  rewrite Hm in Hl. destruct (Dict.lookup a ev).
  - inversion Hl; subst. now destruct (get_list mid a).
  - eapply Hmd; eauto.
Qed.

Lemma get_cashflows_not_empty
      (entries : list entry_t)
      (interesting_accounts internal_accounts : list string)
      (date_from date_to : option date) (currency' : Currency) :
  get_cashflows entries interesting_accounts internal_accounts
                date_from date_to currency' <> Ok [].
Proof.
  unfold get_cashflows.
  destruct (get_cashflows_by_asset_account _ _ _ _ _) as [m|e] eqn:E;
    simpl; [|discriminate].
  destruct (Dict.lookup placeholder_asset_account m) as [l|] eqn:El;
    [|discriminate].
  intros [= ->]. now apply (buckets_not_empty _ _ _ _ _ _ E _ _ El).
Qed.

End PlaceholderFacts.

Section NoBucket.
Context {RE : RegexEngine} {BC : Beancount}.

(** The pending cashflows of an entry sit at buckets of the asset accounts
    its postings resolve to. *)
Lemma pending_cashflows_keys (asset_account_map : list (Pattern * string))
      (price_map : PriceMap) (currency' : Currency) (entry' : txn_t)
      (pending : Dict.t cashflow_t) :
  pending_cashflows asset_account_map price_map currency' entry' = Ok pending ->
  forall k c, In (k, c) pending ->
    exists p a, In p (t_postings entry') /\
                get_asset_account (posting_account p) asset_account_map
                = Some a /\
                In k (parents a).
Proof.
  unfold pending_cashflows.
  apply (for_each_invariant_in
           (accumulate_posting asset_account_map price_map currency' entry')
           (fun d => forall k c, In (k, c) d ->
              exists p a, In p (t_postings entry') /\
                          get_asset_account (posting_account p)
                                            asset_account_map = Some a /\
                          In k (parents a)));
    [|intros k c []].
  intros d posting d' Hin Hd. unfold accumulate_posting.
  destruct (posting_value price_map currency' entry' posting) as [v|e0];
    simpl; [|discriminate].
  destruct (get_asset_account (posting_account posting) asset_account_map)
    as [a|] eqn:Ea; intros [= <-]; [|exact Hd].
  assert (Hsub : forall b, In b (parents a) -> In b (parents a)) by auto.
  revert d Hd Hsub. generalize (parents a) at 1 3. intros buckets.
  induction buckets as [|b buckets IH]; simpl; intros d Hd Hsub; [exact Hd|].
  apply IH; [|auto]. intros k c Hk.
  unfold add_to_pending, Dict.update in Hk.
  apply set_items in Hk as [[-> _]|Hk]; [|eauto].
  exists posting, a. auto.
Qed.

(** A bucket that no posting in the window reaches and that neither
    valuation values is not in the result. *)
Lemma no_bucket_without_flows
      (entries : list entry_t) (asset_account_map : list (string * string))
      (start_date_inclusive end_date_inclusive : option date)
      (currency' : Currency) (m : Dict.t (list cashflow_t)) (k : Account) :
  get_cashflows_by_asset_account entries asset_account_map
    start_date_inclusive end_date_inclusive currency' = Ok m ->
  (forall t p a,
      In t (filter_txns entries) ->
      in_window start_date_inclusive end_date_inclusive (t_date t) = true ->
      In p (t_postings t) ->
      get_asset_account (posting_account p) (compile_map asset_account_map)
      = Some a ->
      ~ In k (parents a)) ->
  (forall s sv,
      start_date_inclusive = Some s ->
      market_values_at entries asset_account_map (Some s) currency' = Ok sv ->
      Dict.lookup k sv = None) ->
  (forall ev,
      ending_market_values entries asset_account_map end_date_inclusive
                           currency' = Ok ev ->
      Dict.lookup k ev = None) ->
  Dict.lookup k m = None.
Proof.
  intros H Hflows Hstart Hend.
  apply get_cashflows_by_asset_account_inv in H
    as (txns & mid & ev & Htxns & Hmid & Hev & Hm).
  rewrite Hm, (Hend ev Hev).
  assert (Htx : Dict.lookup k txns = None).
  { revert Htxns. unfold transaction_cashflows.
    apply (for_each_invariant_in
             _ (fun d : Dict.t (list cashflow_t) => Dict.lookup k d = None));
      [|reflexivity].
    intros d t d' Ht Hd. unfold extract_entry.
    destruct (in_window _ _ (t_date t)) eqn:Hwin; simpl;
      [|now intros [= <-]].
    destruct (pending_cashflows _ _ _ t) as [pending|] eqn:Ep; simpl;
      [|discriminate].
    intros [= <-].
    pose proof (pending_cashflows_keys _ _ _ _ _ Ep) as Hkeys.
    clear Ep. revert d Hd.
    induction pending as [|[k' c] pending IH]; simpl; intros d Hd;
      [exact Hd|].
    apply IH; [intros; eapply Hkeys; right; eauto|].
    destruct (nonzero _); [|exact Hd].
    rewrite lookup_update_ne; [exact Hd|].
    intros ->. destruct (Hkeys k' c (or_introl eq_refl)) as (p & a & Hp & Ha & Hk).
    exact (Hflows t p a Ht Hwin Hp Ha Hk). }
  destruct start_date_inclusive as [s|].
  - destruct Hmid as (sv & Hsv & Hlk). now rewrite Hlk, (Hstart s sv eq_refl Hsv).
  - now subst mid.
Qed.

End NoBucket.

Section PlaceholderTheorem.
Context {RE : RegexEngine} {BC : Beancount}.

(** C9: [get_cashflows] indexes the mapping returned for the placeholder
    rules by the placeholder unconditionally.  When the mapping has no
    bucket for the placeholder asset account it raises [KeyError]; that is
    the case when no posting of a transaction in the window resolves to an
    asset account at or below the placeholder and neither valuation has an
    entry for it.  It never returns the empty list. *)
Theorem get_cashflows_key_error
        (entries : list entry_t)
        (interesting_accounts internal_accounts : list string)
        (date_from date_to : option date) (currency' : Currency)
        (m : Dict.t (list cashflow_t)) :
  get_cashflows_by_asset_account
    entries (placeholder_map (interesting_accounts ++ internal_accounts))
    date_from date_to currency' = Ok m ->
  (Dict.lookup placeholder_asset_account m = None ->
   get_cashflows entries interesting_accounts internal_accounts
                 date_from date_to currency'
   = Raise (KeyError placeholder_asset_account)) /\
  ((forall t p a,
       In t (filter_txns entries) ->
       in_window date_from date_to (t_date t) = true ->
       In p (t_postings t) ->
       get_asset_account
         (posting_account p)
         (compile_map (placeholder_map
                         (interesting_accounts ++ internal_accounts)))
       = Some a ->
       ~ In placeholder_asset_account (parents a)) ->
   (forall s sv,
       date_from = Some s ->
       market_values_at
         entries (placeholder_map (interesting_accounts ++ internal_accounts))
         (Some s) currency' = Ok sv ->
       Dict.lookup placeholder_asset_account sv = None) ->
   (forall ev,
       ending_market_values
         entries (placeholder_map (interesting_accounts ++ internal_accounts))
         date_to currency' = Ok ev ->
       Dict.lookup placeholder_asset_account ev = None) ->
   get_cashflows entries interesting_accounts internal_accounts
                 date_from date_to currency'
   = Raise (KeyError placeholder_asset_account)) /\
  get_cashflows entries interesting_accounts internal_accounts
                date_from date_to currency' <> Ok [].
Proof.
  intros Hm.
  assert (Hkey : Dict.lookup placeholder_asset_account m = None ->
                 get_cashflows entries interesting_accounts internal_accounts
                               date_from date_to currency'
                 = Raise (KeyError placeholder_asset_account)).
  { intros Hnone. unfold get_cashflows. rewrite Hm. simpl. now rewrite Hnone. }
  split; [exact Hkey|]. split.
  - intros Hflows Hstart Hend. apply Hkey.
    eapply no_bucket_without_flows; eauto.
  - apply get_cashflows_not_empty.
Qed.

End PlaceholderTheorem.

(** C9 on the sample ledger: no account matches [Assets:Savings]. *)
Lemma get_cashflows_key_error_witness :
  get_cashflows_by_asset_account (RE := literal_engine) (BC := plain_ledger)
    Sample.ledger (placeholder_map ["Assets:Savings"; "Income:Interest"])
    (Some 3) (Some 10) "USD" = Ok [] /\
  get_cashflows (RE := literal_engine) (BC := plain_ledger)
                Sample.ledger ["Assets:Savings"] ["Income:Interest"]
                (Some 3) (Some 10) "USD"
  = Raise (KeyError "Assets:_AssetAccountForCashflows").
Proof.
  assert (H : get_cashflows_by_asset_account
                (RE := literal_engine) (BC := plain_ledger)
                Sample.ledger
                (placeholder_map (["Assets:Savings"] ++ ["Income:Interest"]))
                (Some 3) (Some 10) "USD" = Ok [])
    by (vm_compute; reflexivity).
  split; [exact H|].
  exact (proj1 (get_cashflows_key_error
                  (RE := literal_engine) (BC := plain_ledger)
                  Sample.ledger ["Assets:Savings"] ["Income:Interest"]
                  (Some 3) (Some 10) "USD" [] H) eq_refl).
Defined.

(** ** The return solver (C7) *)

Lemma insert_by_date_not_nil {A : Type} (x : date * A) (l : list (date * A)) :
  insert_by_date x l <> [].
Proof.
  destruct l as [|y l]; simpl; [discriminate|].
  destruct (fst x <=? fst y); discriminate.
Qed.

Lemma sorted_by_date_not_nil {A : Type} (x : date * A) (l : list (date * A)) :
  sorted_by_date (x :: l) <> [].
Proof. apply insert_by_date_not_nil. Qed.

Section SolverFacts.
Context {PN : PyNumber} {RF : RootFinder PN}.

Lemma xnpv_empty (rate : num) : xnpv rate [] = Raise IndexError.
Proof. reflexivity. Qed.

Lemma discounted_arithmetic (rate : num) (t0 : date) (c : date * num) :
  (exists y, discounted rate t0 c = Ok y) \/
  (exists e, discounted rate t0 c = Raise (arith_exn e)).
Proof.
  destruct c as [t cf]. unfold discounted.
  destruct (pow _ _) as [e|b]; simpl; [eauto|].
  destruct (truediv cf b) as [e|q]; simpl; eauto.
Qed.

Lemma map_discounted_arithmetic (rate : num) (t0 : date)
      (l : list (date * num)) :
  (exists ys, map_result (discounted rate t0) l = Ok ys) \/
  (exists e, map_result (discounted rate t0) l = Raise (arith_exn e)).
Proof.
  induction l as [|c l IH]; simpl; [eauto|].
  destruct (discounted_arithmetic rate t0 c) as [[y ->]|[e ->]]; simpl;
    [|eauto].
  destruct IH as [[ys ->]|[e ->]]; simpl; eauto.
Qed.

(** On a non-empty list [xnpv] returns a number or raises an arithmetic
    error. *)
Lemma xnpv_nonempty (rate : num) (c : date * num) (cs : list (date * num)) :
  (exists x, xnpv rate (c :: cs) = Ok x) \/
  (exists e, xnpv rate (c :: cs) = Raise (arith_exn e)).
Proof.
  unfold xnpv. pose proof (sorted_by_date_not_nil c cs) as Hne.
  destruct (sorted_by_date (c :: cs)) as [|[t0 cf0] rest]; [congruence|].
  destruct (map_discounted_arithmetic rate t0 ((t0, cf0) :: rest))
    as [[ys ->]|[e ->]]; simpl; eauto.
Qed.

(** With one cashflow the exponent is that of zero days, whatever the date
    and the rate. *)
Lemma xnpv_single (rate : num) (t : date) (cf : num) :
  xnpv rate [(t, cf)] =
  (b <- lift (pow (add (of_int 1) rate) (year_fraction 0)) ;;
   q <- lift (truediv cf b) ;;
   Ok (add (of_int 0) q)).
Proof.
  unfold xnpv. simpl. rewrite Z.sub_diag.
  destruct (pow _ _) as [e|b]; simpl; [reflexivity|].
  destruct (truediv cf b) as [e|q]; reflexivity.
Qed.

End SolverFacts.

Lemma secant_evaluates (libm_pow : float -> float -> ArithError + float) :
  evaluates_its_function (scipy_secant libm_pow).
Proof.
  intros func x0 e H. simpl. unfold Binary64.secant. now rewrite H.
Qed.

Lemma xnpv_single_float (libm_pow : float -> float -> ArithError + float)
      (rate : float) (t : date) (cf : float) :
  xnpv (PN := python_float libm_pow) rate [(t, cf)] =
  Ok (PrimFloat.add 0%float (PrimFloat.div cf 1%float)).
Proof.
  etransitivity;
    [exact (xnpv_single (PN := python_float libm_pow) rate t cf)|].
  reflexivity.
Qed.




(** * Further properties of the code *)

(** ** The cashflows of the transactions, one by one *)

Lemma set_add_in (a x : Account) (s : list Account) :
  In x (set_add a s) <-> x = a \/ In x s.
Proof.
  unfold set_add. destruct (existsb (String.eqb a) s) eqn:E.
  - split; [auto|]. intros [->|H]; [|exact H].
    apply existsb_exists in E as (y & Hy & Heq).
    apply String.eqb_eq in Heq. now subst.
  - rewrite in_app_iff. simpl. split.
    + intros [H|[H|[]]]; auto.
    + intros [->|H]; auto.
Qed.

Lemma set_add_NoDup (a : Account) (s : list Account) :
  NoDup s -> NoDup (set_add a s).
Proof.
  intros H. unfold set_add. destruct (existsb (String.eqb a) s) eqn:E; [exact H|].
  apply NoDup_app; [exact H | repeat constructor; simpl; tauto|].
  intros x Hx [->|[]].
  assert (Ht : existsb (String.eqb x) s = true)
    by (apply existsb_exists; exists x; split; [exact Hx | apply String.eqb_refl]).
  congruence.
Qed.

Ltac split8 :=
  split; [|split; [|split; [|split; [|split; [|split; [|split]]]]]].

Section CashflowsOneByOne.
Context {RE : RegexEngine} {BC : Beancount}.
Variable asset_account_map : list (Pattern * string).
Variable price_map : PriceMap.
Variable currency' : Currency.
Variables start_date_inclusive end_date_inclusive : option date.

(** The second loop over the postings records the accounts of the postings
    outside the bucket, and changes nothing else of the cashflow. *)
Lemma classify_fold (a : Account) :
  forall (postings : list Posting) (c : cashflow_t),
    let c' := fold_left (classify_posting asset_account_map a) postings c in
    kind c' = kind c /\ cf_date c' = cf_date c /\ amount c' = amount c /\
    entry c' = entry c /\
    (NoDup (inflow_accounts c) -> NoDup (inflow_accounts c')) /\
    (NoDup (outflow_accounts c) -> NoDup (outflow_accounts c')) /\
    (forall x, In x (outflow_accounts c') <->
               In x (outflow_accounts c) \/
               exists p, In p postings /\ posting_account p = x /\
                         flows_out asset_account_map a p = true) /\
    (forall x, In x (inflow_accounts c') <->
               In x (inflow_accounts c) \/
               exists p, In p postings /\ posting_account p = x /\
                         flows_in asset_account_map a p = true).
Proof.
  induction postings as [|p ps IH]; intros c; simpl.
  - split8; try reflexivity; auto.
    + intros x. split; [auto|]. intros [H|(p & [] & _)]; exact H.
    + intros x. split; [auto|]. intros [H|(p & [] & _)]; exact H.
  - destruct (IH (classify_posting asset_account_map a c p))
      as (Hk & Hd & Ha & He & Hni & Hno & Hout & Hin).
    rewrite Hk, Hd, Ha, He. clear Hk Hd Ha He.
    unfold flows_out, flows_in in *. unfold classify_posting in *.
    destruct (outside_bucket asset_account_map a p) eqn:Eo;
      [destruct (positive (number (get_weight p))) eqn:Ep|]; simpl in *;
      split8; try reflexivity; auto.
    + intros H. apply Hno. now apply set_add_NoDup.
    + intros x. rewrite Hout, set_add_in. split.
      * intros [[->|H]|(q & Hq & Hx & Hf)]; auto.
        -- right. exists p. rewrite Eo, Ep. auto.
        -- right. exists q. auto.
      * intros [H|(q & [<-|Hq] & Hx & Hf)]; auto.
        right. exists q. auto.
    + intros x. rewrite Hin. split.
      * intros [H|(q & Hq & Hx & Hf)]; auto. right. exists q. auto.
      * intros [H|(q & [<-|Hq] & Hx & Hf)]; auto.
        -- rewrite Eo, Ep in Hf. discriminate.
        -- right. exists q. auto.
    + intros H. apply Hni. now apply set_add_NoDup.
    + intros x. rewrite Hout. split.
      * intros [H|(q & Hq & Hx & Hf)]; auto. right. exists q. auto.
      * intros [H|(q & [<-|Hq] & Hx & Hf)]; auto.
        -- rewrite Eo, Ep in Hf. discriminate.
        -- right. exists q. auto.
    + intros x. rewrite Hin, set_add_in. split.
      * intros [[->|H]|(q & Hq & Hx & Hf)]; auto.
        -- right. exists p. rewrite Eo, Ep. auto.
        -- right. exists q. auto.
      * intros [H|(q & [<-|Hq] & Hx & Hf)]; auto.
        right. exists q. auto.
    + intros x. rewrite Hout. split.
      * intros [H|(q & Hq & Hx & Hf)]; auto. right. exists q. auto.
      * intros [H|(q & [<-|Hq] & Hx & Hf)]; auto.
        -- rewrite Eo in Hf. discriminate.
        -- right. exists q. auto.
    + intros x. rewrite Hin. split.
      * intros [H|(q & Hq & Hx & Hf)]; auto. right. exists q. auto.
      * intros [H|(q & [<-|Hq] & Hx & Hf)]; auto.
        -- rewrite Eo in Hf. discriminate.
        -- right. exists q. auto.
Qed.

(** A pending cashflow refers to its entry and names no account yet. *)
Lemma pending_cashflows_fresh (entry' : txn_t) (pending : Dict.t cashflow_t) :
  pending_cashflows asset_account_map price_map currency' entry' = Ok pending ->
  forall k c, In (k, c) pending ->
              entry c = Some entry' /\ inflow_accounts c = [] /\
              outflow_accounts c = [].
Proof.
  unfold pending_cashflows.
  apply (for_each_invariant
           (accumulate_posting asset_account_map price_map currency' entry')
           (fun p => forall k c, In (k, c) p ->
                                 entry c = Some entry' /\
                                 inflow_accounts c = [] /\
                                 outflow_accounts c = []));
    [|intros k c []].
  intros p posting p' Hp. unfold accumulate_posting.
  destruct (posting_value price_map currency' entry' posting) as [v|];
    simpl; [|discriminate].
  destruct (get_asset_account (posting_account posting) asset_account_map)
    as [a|]; intros [= <-]; [|exact Hp].
  generalize (parents a). intros buckets. revert p Hp.
  induction buckets as [|b buckets IH]; simpl; intros p Hp; [exact Hp|].
  apply IH. intros k c Hin. unfold add_to_pending, Dict.update in Hin.
  apply set_items in Hin as [[-> ->]|Hin]; [|eauto].
  destruct (Dict.lookup b p) as [c0|] eqn:E.
  - apply lookup_item in E. apply Hp in E. exact E.
  - repeat split; reflexivity.
Qed.

(** Emitting the pending cashflows of an entry of the window keeps every
    bucket a list of transaction cashflows. *)
Lemma emit_fold_transaction_cashflows (txns : list txn_t) (t : txn_t)
      (all : Dict.t cashflow_t) (a : Account) :
  In t txns ->
  in_window start_date_inclusive end_date_inclusive (t_date t) = true ->
  pending_cashflows asset_account_map price_map currency' t = Ok all ->
  forall (pending : Dict.t cashflow_t) (cashflows : Dict.t (list cashflow_t)),
    (forall k c, In (k, c) pending -> In (k, c) all) ->
    Forall (transaction_cashflow asset_account_map price_map currency'
              start_date_inclusive end_date_inclusive txns a)
           (get_list cashflows a) ->
    Forall (transaction_cashflow asset_account_map price_map currency'
              start_date_inclusive end_date_inclusive txns a)
           (get_list (fold_left (emit_pending asset_account_map t) pending
                                cashflows) a).
Proof.
  intros Ht Hwin Hall.
  induction pending as [|[k c] pending IH]; simpl; intros cashflows Hsub H;
    [exact H|].
  apply IH; [intros; apply Hsub; now right|].
  destruct (nonzero (quantize_hundredths (amount c))) eqn:Enz; [|exact H].
  rewrite get_list_update. destruct (String.eqb a k) eqn:E; [|exact H].
  apply String.eqb_eq in E; subst k.
  apply Forall_app. split; [exact H|]. constructor; [|constructor].
  assert (Hin : In (a, c) all) by (apply Hsub; now left).
  destruct (pending_cashflows_dated _ _ _ _ _ Hall a c Hin) as [Hk Hd].
  destruct (pending_cashflows_fresh _ _ Hall a c Hin) as (He & Hi & Ho).
  pose proof (wf_lookup_item _ a c (pending_cashflows_wf _ _ _ _ _ Hall) Hin)
    as Hlk.
  pose proof (pending_total_attributed _ _ _ _ _ a Hall) as Htot.
  unfold pending_total in Htot. rewrite Hlk in Htot.
  destruct (classify_fold a (t_postings t) c)
    as (Hk' & Hd' & Ha' & He' & Hni & Hno & Hout & Hinn).
  exists t. rewrite Hk', Hd', Ha', He'.
  repeat split; try assumption.
  - apply Hni. rewrite Hi. constructor.
  - apply Hno. rewrite Ho. constructor.
  - intros Hx. apply Hout in Hx as [Hx|Hx]; [|exact Hx].
    rewrite Ho in Hx. contradiction.
  - intros Hx. apply Hout. now right.
  - intros Hx. apply Hinn in Hx as [Hx|Hx]; [|exact Hx].
    rewrite Hi in Hx. contradiction.
  - intros Hx. apply Hinn. now right.
Qed.

Lemma extract_loop_transaction_cashflows (txns : list txn_t)
      (cashflows : Dict.t (list cashflow_t)) (a : Account) :
  for_each (extract_entry asset_account_map price_map currency'
                          start_date_inclusive end_date_inclusive)
           txns Dict.empty = Ok cashflows ->
  Forall (transaction_cashflow asset_account_map price_map currency'
            start_date_inclusive end_date_inclusive txns a)
         (get_list cashflows a).
Proof.
  apply (for_each_invariant_in
           _ (fun d : Dict.t (list cashflow_t) =>
                Forall (transaction_cashflow
                          asset_account_map price_map currency'
                          start_date_inclusive end_date_inclusive txns a)
                       (get_list d a))); [|constructor].
  intros d t d' Ht Hd. unfold extract_entry.
  destruct (in_window _ _ (t_date t)) eqn:Hwin; simpl; [|now intros [= <-]].
  destruct (pending_cashflows asset_account_map price_map currency' t)
    as [pending|] eqn:Ep; simpl; [|discriminate].
  intros [= <-].
  apply (emit_fold_transaction_cashflows txns t pending a Ht Hwin Ep); auto.
Qed.

End CashflowsOneByOne.

Section TransactionCashflowTheorems.
Context {RE : RegexEngine} {BC : Beancount}.

(** A cashflow of kind transaction found in a bucket of the result was
    emitted by the loop over the transactions. *)
Lemma result_transaction_cashflow
      (entries : list entry_t) (asset_account_map : list (string * string))
      (start_date_inclusive end_date_inclusive : option date)
      (currency' : Currency) (m : Dict.t (list cashflow_t))
      (a : Account) (l : list cashflow_t) (c : cashflow_t) :
  get_cashflows_by_asset_account entries asset_account_map
    start_date_inclusive end_date_inclusive currency' = Ok m ->
  Dict.lookup a m = Some l -> In c l -> kind c = txn ->
  transaction_cashflow (compile_map asset_account_map)
                       (build_price_map entries) currency'
                       start_date_inclusive end_date_inclusive
                       (filter_txns entries) a c.
Proof.
  intros H Hl Hc Hk.
  apply bucket_decomposition in H
    as (txns & sv & ev & Htxns & _ & _ & Hdec).
  rewrite (Hdec a l Hl) in Hc.
  pose proof (extract_loop_transaction_cashflows _ _ _ _ _ _ _ a Htxns) as Hall.
  rewrite Forall_forall in Hall.
  apply in_app_or in Hc as [Hc|Hc]; [|apply in_app_or in Hc as [Hc|Hc]].
  - destruct start_date_inclusive as [s|]; [|contradiction].
    unfold starting_part in Hc. destruct (Dict.lookup a sv); [|contradiction].
    destruct Hc as [<-|[]]. discriminate.
  - now apply Hall.
  - unfold ending_part in Hc. destruct (Dict.lookup a ev); [|contradiction].
    destruct Hc as [<-|[]]. discriminate.
Qed.


(** X2: the accounts recorded on a transaction cashflow are those of the
    other side of the flow: an account is among its outflow accounts
    exactly when a posting of its transaction to that account lies outside
    the bucket and has a positive weight, and among its inflow accounts
    exactly when such a posting has a weight that is not positive; neither
    set lists an account twice. *)
Theorem transaction_cashflow_accounts
        (entries : list entry_t) (asset_account_map : list (string * string))
        (start_date_inclusive end_date_inclusive : option date)
        (currency' : Currency) (m : Dict.t (list cashflow_t))
        (a : Account) (l : list cashflow_t) (c : cashflow_t) :
  get_cashflows_by_asset_account entries asset_account_map
    start_date_inclusive end_date_inclusive currency' = Ok m ->
  Dict.lookup a m = Some l -> In c l -> kind c = txn ->
  exists t,
    entry c = Some t /\
    NoDup (inflow_accounts c) /\ NoDup (outflow_accounts c) /\
    (forall x, In x (outflow_accounts c) <->
               exists p, In p (t_postings t) /\ posting_account p = x /\
                         outside_bucket (compile_map asset_account_map) a p
                         = true /\
                         positive (number (get_weight p)) = true) /\
    (forall x, In x (inflow_accounts c) <->
               exists p, In p (t_postings t) /\ posting_account p = x /\
                         outside_bucket (compile_map asset_account_map) a p
                         = true /\
                         positive (number (get_weight p)) = false).
Proof.
  intros H Hl Hc Hk.
  destruct (result_transaction_cashflow _ _ _ _ _ _ _ _ _ H Hl Hc Hk)
    as (t & _ & _ & _ & He & _ & _ & _ & Hni & Hno & Hout & Hin).
  exists t. split; [exact He|]. split; [exact Hni|]. split; [exact Hno|].
  split; intros x.
  - rewrite Hout. unfold flows_out.
    split; intros (p & Hp & Hx & Hf); exists p; repeat split; auto.
    + now apply andb_prop in Hf.
    + now apply andb_prop in Hf.
    + destruct Hf as [-> ->]. reflexivity.
  - rewrite Hin. unfold flows_in.
    split; intros (p & Hp & Hx & Hf); exists p; repeat split; auto.
    + now apply andb_prop in Hf.
    + apply andb_prop in Hf as [_ Hf]. now apply negb_true_iff in Hf.
    + destruct Hf as [-> ->]. reflexivity.
Qed.

End TransactionCashflowTheorems.


(** X2 on the sample ledger: the salary account is the inflow account of
    the cashflow of [Assets:Broker]. *)
Lemma transaction_cashflow_accounts_witness :
  exists m l c,
    get_cashflows_by_asset_account (RE := literal_engine) (BC := plain_ledger)
      Sample.ledger Sample.accounts (Some 3) (Some 10) "USD" = Ok m /\
    Dict.lookup "Assets:Broker" m = Some l /\ In c l /\ kind c = txn /\
    inflow_accounts c = ["Income:Salary"] /\
    exists t,
      entry c = Some t /\
      NoDup (inflow_accounts c) /\ NoDup (outflow_accounts c) /\
      (forall x, In x (outflow_accounts c) <->
                 exists p, In p (t_postings t) /\
                           @posting_account plain_ledger p = x /\
                           outside_bucket (RE := literal_engine)
                             (compile_map Sample.accounts) "Assets:Broker" p
                           = true /\
                           positive (number (@get_weight plain_ledger p))
                           = true) /\
      (forall x, In x (inflow_accounts c) <->
                 exists p, In p (t_postings t) /\
                           @posting_account plain_ledger p = x /\
                           outside_bucket (RE := literal_engine)
                             (compile_map Sample.accounts) "Assets:Broker" p
                           = true /\
                           positive (number (@get_weight plain_ledger p))
                           = false).
Proof.
  do 3 eexists.
  split; [exact sample_extraction|].
  split; [reflexivity|]. split; [left; reflexivity|]. split; [reflexivity|].
  split; [reflexivity|].
  eapply (transaction_cashflow_accounts
            (RE := literal_engine) (BC := plain_ledger));
    [exact sample_extraction | reflexivity | left; reflexivity | reflexivity].
Defined.

(** ** The window, the buckets and the errors of the extraction *)

Section WindowAndBuckets.
Context {RE : RegexEngine} {BC : Beancount}.

(** X3: the window is a filter on the transactions: the cashflows of the
    transactions for a window are those the loop, run without a window,
    extracts from the transactions dated inside it, and a failure of the one
    is the same failure of the other; a transaction outside the window
    plays no part, not even through a posting that cannot be converted. *)
Theorem window_filters_transactions
        (entries : list entry_t) (asset_account_map : list (string * string))
        (start_date_inclusive end_date_inclusive : option date)
        (currency' : Currency) :
  transaction_cashflows entries asset_account_map start_date_inclusive
                        end_date_inclusive currency' =
  for_each (extract_entry (compile_map asset_account_map)
                          (build_price_map entries) currency' None None)
           (filter (fun t => in_window start_date_inclusive end_date_inclusive
                                       (t_date t))
                   (filter_txns entries))
           Dict.empty.
Proof.
  unfold transaction_cashflows.
  generalize (@Dict.empty (list cashflow_t)).
  induction (filter_txns entries) as [|t txns IH]; intros cashflows; simpl;
    [reflexivity|].
  unfold extract_entry at 1.
  destruct (in_window start_date_inclusive end_date_inclusive (t_date t));
    simpl.
  - unfold extract_entry at 2. simpl.
    destruct (pending_cashflows _ _ _ t); simpl; [apply IH | reflexivity].
  - apply IH.
Qed.

(** X4: the buckets of the result are those that received a transaction
    cashflow, a starting balance or an ending balance, and every bucket
    holds at least one cashflow. *)
Theorem result_buckets
        (entries : list entry_t) (asset_account_map : list (string * string))
        (start_date_inclusive end_date_inclusive : option date)
        (currency' : Currency) (m : Dict.t (list cashflow_t)) :
  get_cashflows_by_asset_account entries asset_account_map
    start_date_inclusive end_date_inclusive currency' = Ok m ->
  exists txns sv ev,
    transaction_cashflows entries asset_account_map start_date_inclusive
                          end_date_inclusive currency' = Ok txns /\
    match start_date_inclusive with
    | Some s => market_values_at entries asset_account_map (Some s) currency'
                = Ok sv
    | None => sv = Dict.empty
    end /\
    ending_market_values entries asset_account_map end_date_inclusive
                         currency' = Ok ev /\
    forall a,
      (Dict.lookup a m = None <->
       Dict.lookup a txns = None /\ Dict.lookup a sv = None /\
       Dict.lookup a ev = None) /\
      (forall l, Dict.lookup a m = Some l -> l <> []).
Proof.
  intros H. pose proof (buckets_not_empty _ _ _ _ _ _ H) as Hne.
  apply get_cashflows_by_asset_account_inv in H
    as (txns & mid & ev & Htxns & Hmid & Hev & Hm).
  assert (Hsv : exists sv,
             match start_date_inclusive with
             | Some s => market_values_at entries asset_account_map (Some s)
                                          currency' = Ok sv
             | None => sv = Dict.empty
             end /\
             forall a, Dict.lookup a mid = None <->
                       Dict.lookup a txns = None /\ Dict.lookup a sv = None).
  { destruct start_date_inclusive as [s|].
    - destruct Hmid as (sv & Hsv & Hlk). exists sv. split; [exact Hsv|].
      intros a. rewrite Hlk. destruct (Dict.lookup a sv).
      + split; [discriminate | intros [_ ?]; discriminate].
      + tauto.
    - subst mid. exists Dict.empty. split; [reflexivity|]. intros a.
      simpl. tauto. }
  destruct Hsv as (sv & Hsv & Hlk).
  exists txns, sv, ev.
  split; [exact Htxns|]. split; [exact Hsv|]. split; [exact Hev|].
  intros a. split; [|apply Hne].
  rewrite Hm. destruct (Dict.lookup a ev) as [v|].
  - split; [discriminate | intros (_ & _ & H); discriminate].
  - rewrite Hlk. tauto.
Qed.

Lemma market_value_step_raise_inv (asset_account_map : list (Pattern * string))
      (price_map : PriceMap) (currency' : Currency) (d : Dict.t Decimal)
      (ra : RealAccount) (e : exn) :
  market_value_step asset_account_map price_map currency' d ra = Raise e ->
  e = NameError "converted" \/ e = AssertionError.
Proof.
  unfold market_value_step.
  destruct (negb _); [discriminate|].
  destruct (get_asset_account _ _); [|discriminate].
  destruct (reduce_convert_position _ _ _) as [|pos [|pos' inv]]; simpl;
    try discriminate.
  - destruct (get_number (units pos) currency') as [v|e'] eqn:E; simpl;
      [discriminate|].
    intros [= <-]. left. now apply get_number_raise_inv in E.
  - intros [= <-]. now right.
Qed.

Lemma market_values_raise_inv (entries : list entry_t)
      (asset_account_map : list (Pattern * string)) (cutoff : option date)
      (price_map : PriceMap) (currency' : Currency) (e : exn) :
  get_market_values_by_asset_account entries asset_account_map cutoff
                                     price_map currency' = Raise e ->
  e = NameError "converted" \/ e = AssertionError.
Proof.
  unfold get_market_values_by_asset_account.
  apply (for_each_raise_inv
           _ (fun e => e = NameError "converted" \/ e = AssertionError)).
  intros s ra e' _. apply market_value_step_raise_inv.
Qed.


End WindowAndBuckets.

(** X4 on the sample ledger. *)
Lemma result_buckets_witness :
  exists m,
    get_cashflows_by_asset_account (RE := literal_engine) (BC := plain_ledger)
      Sample.ledger Sample.accounts (Some 3) (Some 10) "USD" = Ok m /\
    Dict.lookup "Assets:Savings" m = None /\
    forall a l, Dict.lookup a m = Some l -> l <> [].
Proof.
  eexists. split; [exact sample_extraction|]. split; [reflexivity|].
  destruct (result_buckets (RE := literal_engine) (BC := plain_ledger)
              _ _ _ _ _ _ sample_extraction)
    as (txns & sv & ev & _ & _ & _ & H).
  intros a. apply (H a).
Defined.


(** ** Valuations *)

Section Valuations.
Context {RE : RegexEngine} {BC : Beancount}.
Variable asset_account_map : list (Pattern * string).
Variable price_map : PriceMap.
Variable currency' : Currency.

(** A step of the valuation that returns has added the value of the
    account, if it has one, to its bucket. *)
Lemma market_value_step_ok (d d' : Dict.t Decimal) (ra : RealAccount) :
  market_value_step asset_account_map price_map currency' d ra = Ok d' ->
  d' = match account_value asset_account_map price_map currency' ra with
       | Some (b, v) => Dict.update 0%Q (add_market_value v) b d
       | None => d
       end.
Proof.
  unfold market_value_step, account_value.
  destruct (is_assets_account (real_account_name ra)); simpl;
    [|now intros [= <-]].
  destruct (get_asset_account _ _) as [b|]; [|now intros [= <-]].
  destruct (reduce_convert_position _ _ _) as [|pos [|pos' inv]]; simpl;
    try discriminate; [now intros [= <-]|].
  destruct (get_number (units pos) currency') as [v|] eqn:E; simpl;
    [|discriminate].
  apply get_number_ok_inv in E as [_ ->]. now intros [= <-].
Qed.

Lemma market_values_from (b : Account) :
  forall (ras : list RealAccount) (d0 d : Dict.t Decimal),
    for_each (market_value_step asset_account_map price_map currency')
             ras d0 = Ok d ->
    let vs := bucket_values asset_account_map price_map currency' b ras in
    (Dict.lookup b d = None <-> Dict.lookup b d0 = None /\ vs = []) /\
    (match Dict.lookup b d with Some v => v | None => 0 end ==
     match Dict.lookup b d0 with Some v => v | None => 0 end + Qsum vs)%Q.
Proof.
  induction ras as [|ra ras IH]; simpl; intros d0 d H.
  - inversion H; subst. split; [tauto | ring].
  - apply bind_ok_inv in H as (d1 & H1 & H2).
    apply market_value_step_ok in H1.
    destruct (IH d1 d H2) as [Hnone Hsum]. clear IH H2.
    unfold bucket_values in *. simpl.
    destruct (account_value asset_account_map price_map currency' ra)
      as [[b' v]|]; [|subst d1; simpl; split; assumption].
    subst d1. destruct (String.eqb b b') eqn:E.
    + apply String.eqb_eq in E; subst b'.
      rewrite lookup_update_eq in Hnone, Hsum. split.
      * rewrite Hnone. split; [intros [? _]; discriminate|].
        intros [_ ?]; discriminate.
      * rewrite Hsum. unfold add_market_value. simpl.
        destruct (Dict.lookup b d0); ring.
    + apply String.eqb_neq in E.
      rewrite lookup_update_ne in Hnone, Hsum by assumption.
      simpl. split; assumption.
Qed.


End Valuations.


(** ** [get_asset_account]: the order of the rules *)

Section RuleOrder.
Context {RE : RegexEngine}.

(** X7: [get_asset_account] returns the substitution of a rule as soon as
    that rule substitutes at least once and no rule before it does,
    whatever rules follow; it returns nothing exactly when no rule of the
    map substitutes. *)
Theorem first_matching_rule_wins (account : Account) :
  (forall before pattern replacement after asset_account n,
      Forall (no_match account) before ->
      subn pattern replacement account = (asset_account, n) ->
      (0 < n)%nat ->
      get_asset_account account (before ++ (pattern, replacement) :: after)
      = Some asset_account) /\
  (forall rules,
      get_asset_account account rules = None <->
      Forall (no_match account) rules).
Proof.
  split.
  - intros before pattern replacement after asset_account n Hb Hs Hn.
    induction Hb as [|[p r] before Hp Hb IH]; simpl.
    + rewrite Hs. apply Nat.ltb_lt in Hn. now rewrite Hn.
    + unfold no_match in Hp. simpl in Hp.
      destruct (subn p r account) as [x k]. simpl in Hp. subst k. exact IH.
  - intros rules. induction rules as [|[p r] rules IH]; simpl.
    + split; [constructor | reflexivity].
    + destruct (subn p r account) as [x k] eqn:E.
      destruct (0 <? k)%nat eqn:Ek.
      * split; [discriminate|]. intros H. inversion H as [|? ? Hp _]; subst.
        unfold no_match in Hp. simpl in Hp. rewrite E in Hp. simpl in Hp.
        subst k. discriminate.
      * rewrite IH. split.
        -- intros H. constructor; [|exact H].
           unfold no_match. simpl. rewrite E. simpl.
           apply Nat.ltb_ge in Ek. lia.
        -- intros H. now inversion H.
Qed.

End RuleOrder.

(** X7 on a map in which an income rule comes first and two rules match
    [Assets:Bank]: the first of the two wins. *)
Lemma first_matching_rule_witness :
  Forall (no_match (RE := literal_engine) "Assets:Bank")
         [("Income", "Assets:Income")] /\
  get_asset_account (RE := literal_engine) "Assets:Bank"
                    [("Income", "Assets:Income"); ("Assets:Bank", "Assets:A");
                     ("Assets", "Assets:B")] = Some "Assets:A".
Proof.
  assert (H : Forall (no_match (RE := literal_engine) "Assets:Bank")
                     [("Income", "Assets:Income")])
    by (repeat constructor).
  split; [exact H|].
  exact (proj1 (first_matching_rule_wins (RE := literal_engine) "Assets:Bank")
               [("Income", "Assets:Income")] "Assets:Bank" "Assets:A"
               [("Assets", "Assets:B")] "Assets:A" 1%nat H eq_refl
               (Nat.lt_0_succ 0)).
Defined.

(** ** [xnpv]: the order of the cashflows *)

Section ChronologicalOrder.
Context {A : Type}.

Lemma insert_by_date_perm (x : date * A) (l : list (date * A)) :
  Permutation (insert_by_date x l) (x :: l).
Proof.
  induction l as [|y l IH]; simpl; [reflexivity|].
  destruct (fst x <=? fst y); [reflexivity|].
  rewrite IH. apply perm_swap.
Qed.

Lemma sorted_by_date_perm (l : list (date * A)) :
  Permutation (sorted_by_date l) l.
Proof.
  induction l as [|x l IH]; simpl; [reflexivity|].
  rewrite insert_by_date_perm. now constructor.
Qed.

Lemma insert_by_date_sorted (x : date * A) (l : list (date * A)) :
  StronglySorted by_date l -> StronglySorted by_date (insert_by_date x l).
Proof.
  unfold by_date.
  induction l as [|y l IH]; simpl; intros H; [repeat constructor|].
  inversion H as [|? ? Hs Hf]; subst.
  destruct (fst x <=? fst y) eqn:E.
  - apply Z.leb_le in E. constructor; [exact H|].
    constructor; [exact E|].
    eapply Forall_impl; [|exact Hf]. simpl. intros z Hz. lia.
  - apply Z.leb_gt in E. constructor; [auto|].
    rewrite (Forall_forall). intros z Hz.
    apply (Permutation_in _ (insert_by_date_perm x l)) in Hz.
    destruct Hz as [<-|Hz]; [simpl; lia|].
    rewrite Forall_forall in Hf. now apply Hf.
Qed.

Lemma sorted_by_date_sorted (l : list (date * A)) :
  StronglySorted by_date (sorted_by_date l).
Proof.
  induction l as [|x l IH]; simpl; [constructor|].
  now apply insert_by_date_sorted.
Qed.

(** Two lists in date order with the same elements, no two of which share
    a date, are the same list. *)
Lemma chronological_unique :
  forall l1 l2 : list (date * A),
    StronglySorted by_date l1 -> StronglySorted by_date l2 ->
    Permutation l1 l2 -> NoDup (List.map fst l1) -> l1 = l2.
Proof.
  induction l1 as [|x l1 IH]; intros l2 H1 H2 Hp Hnd.
  - apply Permutation_nil in Hp. now subst.
  - destruct l2 as [|y l2];
      [apply Permutation_sym, Permutation_nil in Hp; discriminate|].
    inversion H1 as [|? ? Hs1 Hf1]; subst.
    inversion H2 as [|? ? Hs2 Hf2]; subst.
    inversion Hnd as [|? ? Hnot Hnd']; subst.
    rewrite Forall_forall in Hf1, Hf2.
    assert (Hxy : x = y).
    { assert (Hy : In y (x :: l1))
        by (apply (Permutation_in _ (Permutation_sym Hp)); now left).
      assert (Hx : In x (y :: l2))
        by (apply (Permutation_in _ Hp); now left).
      destruct Hy as [Hy|Hy]; [exact Hy|].
      destruct Hx as [Hx|Hx]; [now symmetry|].
      exfalso. apply Hnot.
      assert (Hfst : fst x = fst y)
        by (pose proof (Hf1 y Hy); pose proof (Hf2 x Hx);
            unfold by_date in *; lia).
      rewrite Hfst. now apply in_map. }
    subst y. f_equal.
    apply IH; auto. now apply Permutation_cons_inv in Hp.
Qed.

Lemma sorted_by_date_order_independent (l1 l2 : list (date * A)) :
  Permutation l1 l2 -> NoDup (List.map fst l1) ->
  sorted_by_date l1 = sorted_by_date l2.
Proof.
  intros Hp Hnd.
  apply chronological_unique; try apply sorted_by_date_sorted.
  - rewrite !sorted_by_date_perm. exact Hp.
  - eapply Permutation_NoDup; [|exact Hnd].
    apply Permutation_map, Permutation_sym, sorted_by_date_perm.
Qed.

End ChronologicalOrder.

(** X8: [xnpv] sorts its cashflows by date before it discounts them: for
    cashflows no two of which share a date, the value, or the exception,
    does not depend on the order in which they are listed. *)
Theorem xnpv_order_independent {PN : PyNumber} (rate : num)
        (cashflows1 cashflows2 : list (date * num)) :
  Permutation cashflows1 cashflows2 ->
  NoDup (List.map fst cashflows1) ->
  xnpv rate cashflows1 = xnpv rate cashflows2.
Proof.
  intros Hp Hnd. unfold xnpv.
  now rewrite (sorted_by_date_order_independent _ _ Hp Hnd).
Qed.

(** X8 on Python floats: an outflow and the inflow a year later, listed in
    either order, at the rate of ten per cent. *)
Lemma xnpv_order_independent_witness :
  NoDup (List.map fst [(365, 1100%float); (0, (-1000)%float)]) /\
  xnpv (PN := python_float Binary64.pow_at_one) 0.1%float
       [(365, 1100%float); (0, (-1000)%float)] =
  xnpv (PN := python_float Binary64.pow_at_one) 0.1%float
       [(0, (-1000)%float); (365, 1100%float)].
Proof.
  assert (H : NoDup (List.map fst [(365, 1100%float); (0, (-1000)%float)]))
    by (repeat constructor; simpl; intuition discriminate).
  split; [exact H|].
  apply (xnpv_order_independent (PN := python_float Binary64.pow_at_one));
    [apply perm_swap | exact H].
Defined.

(** ** The report of irr.py *)

Lemma fold_left_Qplus (l : list Q) (x : Q) :
  (fold_left Qplus l x == x + Qsum l)%Q.
Proof.
  revert x. induction l as [|y l IH]; intros x; simpl; [ring|].
  rewrite IH. ring.
Qed.

Section ReportFacts.
Context {RE : RegexEngine} {BC : Beancount}.

Lemma filter_ending_transactions (l : list cashflow_t) :
  Forall (fun c => kind c = txn) l ->
  filter (fun f => is_ending_balance (kind f)) l = [] /\
  filter (fun f => negb (is_ending_balance (kind f))) l = l.
Proof.
  induction 1 as [|c l Hc _ [IH1 IH2]]; simpl; [auto|].
  rewrite Hc. simpl. rewrite IH1, IH2. auto.
Qed.


(** A list of cashflows that all carry a date converts to as many dated
    amounts. *)
Lemma dated_amounts_some {PN : PyNumber} (float' : Decimal -> num)
      (l : list cashflow_t) :
  Forall (fun c => cf_date c <> None) l ->
  exists input, dated_amounts float' l = Some input /\
                List.length input = List.length l.
Proof.
  induction 1 as [|c l Hc _ (input & Hi & Hlen)]; simpl; [eauto|].
  destruct (cf_date c) as [d|]; [|congruence].
  rewrite Hi. eexists. split; [reflexivity|]. simpl. now rewrite Hlen.
Qed.

(** X10: with an end date, as irr.py always supplies one, the cashflows of
    every bucket of the result convert to a non-empty list of dated amounts,
    on which [xnpv] returns a number or raises an arithmetic error at every
    rate: the [IndexError] of the empty list cannot occur in the report. *)
Theorem report_xirr_input {PN : PyNumber} (float' : Decimal -> num)
        (entries : list entry_t) (asset_account_map : list (string * string))
        (start_date_inclusive : option date) (end_date_inclusive : date)
        (currency' : Currency) (m : Dict.t (list cashflow_t))
        (a : Account) (l : list cashflow_t) :
  get_cashflows_by_asset_account entries asset_account_map
    start_date_inclusive (Some end_date_inclusive) currency' = Ok m ->
  Dict.lookup a m = Some l ->
  exists input,
    dated_amounts float' l = Some input /\
    input <> [] /\
    forall rate,
      (exists x, xnpv rate input = Ok x) \/
      (exists e, xnpv rate input = Raise (arith_exn e)).
Proof.
  intros H Hl.
  pose proof (buckets_not_empty _ _ _ _ _ _ H a l Hl) as Hne.
  apply bucket_decomposition in H
    as (txns & sv & ev & Htxns & _ & _ & Hdec).
  assert (Hdated : Forall (fun c : cashflow_t => cf_date c <> None) l).
  { rewrite (Hdec a l Hl).
    apply Forall_app; split; [|apply Forall_app; split].
    - destruct start_date_inclusive as [s|]; [|constructor].
      unfold starting_part. destruct (Dict.lookup a sv); repeat constructor.
      discriminate.
    - eapply Forall_impl;
        [|exact (transaction_cashflows_dated _ _ _ _ _ _ a Htxns)].
      intros c (d & _ & Hd & _). congruence.
    - unfold ending_part. destruct (Dict.lookup a ev); repeat constructor.
      discriminate. }
  destruct (dated_amounts_some float' l Hdated) as (input & Hi & Hlen).
  exists input. split; [exact Hi|].
  destruct input as [|c cs];
    [destruct l; [congruence | discriminate]|].
  split; [discriminate|]. intros rate. apply xnpv_nonempty.
Qed.

(** X11: the debugging output reads the attributes [inflows] and [outflows],
    which a [Cashflow] does not have: on every list that [get_cashflows]
    returns, building either list raises [AttributeError]. *)
Theorem debug_flows_attribute_error
        (entries : list entry_t)
        (interesting_accounts internal_accounts : list string)
        (date_from date_to : option date) (currency' : Currency)
        (cashflows : list cashflow_t) :
  get_cashflows entries interesting_accounts internal_accounts
                date_from date_to currency' = Ok cashflows ->
  debug_inflows cashflows = Raise AttributeError /\
  debug_outflows cashflows = Raise AttributeError.
Proof.
  intros H. destruct cashflows as [|c cashflows].
  - exfalso. exact (get_cashflows_not_empty _ _ _ _ _ _ H).
  - split; reflexivity.
Qed.

End ReportFacts.


(** X10 on the sample ledger and Python floats, with a conversion that
    keeps the integer part of the amounts. *)
Lemma report_xirr_input_witness :
  exists m l input,
    get_cashflows_by_asset_account (RE := literal_engine) (BC := plain_ledger)
      Sample.ledger Sample.accounts (Some 3) (Some 10) "USD" = Ok m /\
    Dict.lookup "Assets:Broker" m = Some l /\
    dated_amounts (PN := python_float Binary64.pow_at_one)
                  (fun x => Binary64.of_Z (Qnum x / Zpos (Qden x))) l
    = Some input /\
    input <> [].
Proof.
  do 2 eexists.
  destruct (report_xirr_input
              (RE := literal_engine) (BC := plain_ledger)
              (PN := python_float Binary64.pow_at_one)
              (fun x => Binary64.of_Z (Qnum x / Zpos (Qden x)))
              Sample.ledger Sample.accounts (Some 3) 10 "USD" _
              "Assets:Broker" _ sample_extraction eq_refl)
    as (input & Hi & Hne & _).
  exists input. split; [exact sample_extraction|]. split; [reflexivity|].
  split; assumption.
Defined.

(** X11 on the sample ledger: the cashflows of the bank account. *)
Lemma debug_flows_attribute_error_witness :
  exists cashflows,
    get_cashflows (RE := literal_engine) (BC := plain_ledger)
                  Sample.ledger ["Assets:Bank"] [] None (Some 10) "USD"
    = Ok cashflows /\
    debug_inflows cashflows = Raise AttributeError /\
    debug_outflows cashflows = Raise AttributeError.
Proof.
  destruct (get_cashflows (RE := literal_engine) (BC := plain_ledger)
                          Sample.ledger ["Assets:Bank"] [] None (Some 10) "USD")
    as [cashflows|e] eqn:E; [|vm_compute in E; discriminate].
  exists cashflows. split; [reflexivity|].
  exact (debug_flows_attribute_error
           (RE := literal_engine) (BC := plain_ledger)
           _ _ _ _ _ _ _ E).
Defined.

(** ** Discounting from the earliest date *)

(** X12: [xnpv] discounts from the earliest date of its cashflows, wherever
    that cashflow is listed: the cashflows are discounted in date order,
    each over the days since the first of that order, which is a cashflow
    of the input before which no cashflow of the input is dated; no
    cashflow is discounted over a negative number of days. *)
Theorem xnpv_discounts_from_earliest {PN : PyNumber} (rate : num)
        (c : date * num) (cashflows : list (date * num)) :
  exists t0 cf0 rest,
    Permutation ((t0, cf0) :: rest) (c :: cashflows) /\
    (forall t cf, In (t, cf) (c :: cashflows) -> 0 <= t - t0) /\
    Sorted by_date ((t0, cf0) :: rest) /\
    xnpv rate (c :: cashflows) =
    (terms <- map_result (discounted rate t0) ((t0, cf0) :: rest) ;;
     Ok (fold_left add terms (of_int 0))).
Proof.
  pose proof (sorted_by_date_sorted (c :: cashflows)) as Hs.
  pose proof (sorted_by_date_perm (c :: cashflows)) as Hp.
  unfold xnpv.
  destruct (sorted_by_date (c :: cashflows)) as [|[t0 cf0] rest] eqn:E.
  - apply Permutation_nil in Hp. discriminate.
  - exists t0, cf0, rest. split; [exact Hp|].
    split; [|split; [|reflexivity]].
    + intros t cf Hin.
      apply (Permutation_in _ (Permutation_sym Hp)) in Hin.
      inversion Hs as [|? ? _ Hf]; subst.
      destruct Hin as [[= <- <-]|Hin]; [lia|].
      rewrite Forall_forall in Hf. specialize (Hf _ Hin).
      unfold by_date in Hf. simpl in Hf. lia.
    + apply StronglySorted_Sorted. exact Hs.
Qed.

(** ** Consecutive windows *)

Section ConsecutiveWindows.
Context {RE : RegexEngine} {BC : Beancount}.

(** X13: the ending balances of a window that ends on day [e] and the
    starting balances of a window that starts the day after come from one
    valuation, that of the beginning of day [e + 1]: a bucket valued [v]
    there ends with the ending balance [-v] in the first result and begins
    with the starting balance [v] in the second; a bucket not valued there
    has neither. *)
Theorem consecutive_windows
        (entries : list entry_t) (asset_account_map : list (string * string))
        (start1 end2 : option date) (e : date) (currency' : Currency)
        (m1 m2 : Dict.t (list cashflow_t)) :
  get_cashflows_by_asset_account entries asset_account_map
    start1 (Some e) currency' = Ok m1 ->
  get_cashflows_by_asset_account entries asset_account_map
    (Some (e + 1)) end2 currency' = Ok m2 ->
  exists values,
    market_values_at entries asset_account_map (Some (e + 1)) currency'
    = Ok values /\
    forall a,
      match Dict.lookup a values with
      | Some v =>
          (exists front,
              Dict.lookup a m1 =
              Some (front ++ [ending_cashflow (Some e) v])%list) /\
          (exists rest,
              Dict.lookup a m2 = Some (starting_cashflow (e + 1) v :: rest))
      | None =>
          (forall l c, Dict.lookup a m1 = Some l -> In c l ->
                       kind c <> ending_balance) /\
          (forall l c, Dict.lookup a m2 = Some l -> In c l ->
                       kind c <> starting_balance)
      end.
Proof.
  intros H1 H2.
  pose proof (bucket_decomposition _ _ _ _ _ _ H1)
    as (txns1 & sv1 & ev1 & Htx1 & _ & Hev1' & Hdec1).
  pose proof (bucket_decomposition _ _ _ _ _ _ H2)
    as (txns2 & sv2 & ev2' & Htx2 & Hsv2' & _ & Hdec2).
  apply get_cashflows_by_asset_account_inv in H1
    as (_ & mid1 & ev & _ & _ & Hev & Hm1).
  apply get_cashflows_by_asset_account_inv in H2
    as (txns2' & mid2 & ev2 & Htx2' & (sv & Hsv & Hmid2) & _ & Hm2).
  rewrite Hev in Hev1'. injection Hev1' as <-.
  simpl in Hsv2'. rewrite Hsv in Hsv2'. injection Hsv2' as <-.
  assert (Heq : ev = sv).
  { unfold ending_market_values, ending_cutoff, plus_one_day in Hev.
    destruct (e <? date_max); [|discriminate Hev].
    change (market_values_at entries asset_account_map (Some (e + 1))
                             currency' = Ok ev) in Hev.
    pose proof (eq_trans (eq_sym Hev) Hsv) as Heq.
    now injection Heq. }
  subst ev. exists sv. split; [exact Hsv|]. intros a.
  assert (Htxn : forall txns s' e',
             transaction_cashflows entries asset_account_map s' e' currency'
             = Ok txns ->
             forall c, In c (get_list txns a) -> kind c = txn).
  { intros txns s' e' Htx c Hc.
    pose proof (transaction_cashflows_dated _ _ _ _ _ _ a Htx) as Hall.
    rewrite Forall_forall in Hall. destruct (Hall c Hc) as (d & Hk & _).
    exact Hk. }
  destruct (Dict.lookup a sv) as [v|] eqn:Ea.
  - split.
    + rewrite Hm1, Ea. eexists. reflexivity.
    + rewrite Hm2. specialize (Hmid2 a). rewrite Ea in Hmid2.
      destruct (Dict.lookup a ev2).
      * unfold get_list. rewrite Hmid2. eexists. reflexivity.
      * eexists. exact Hmid2.
  - split.
    + intros l c Hl Hc. rewrite (Hdec1 a l Hl) in Hc.
      unfold ending_part in Hc. rewrite Ea, app_nil_r in Hc.
      apply in_app_or in Hc as [Hc|Hc].
      * destruct start1 as [s1|]; [|contradiction].
        unfold starting_part in Hc.
        destruct (Dict.lookup a sv1); [|contradiction].
        destruct Hc as [<-|[]]. discriminate.
      * rewrite (Htxn _ _ _ Htx1 c Hc). discriminate.
    + intros l c Hl Hc. rewrite (Hdec2 a l Hl) in Hc.
      unfold starting_part in Hc. rewrite Ea in Hc. simpl in Hc.
      apply in_app_or in Hc as [Hc|Hc].
      * rewrite (Htxn _ _ _ Htx2 c Hc). discriminate.
      * unfold ending_part in Hc.
        destruct (Dict.lookup a ev2'); [|contradiction].
        destruct Hc as [<-|[]]. discriminate.
Qed.

End ConsecutiveWindows.

(** X13 on the sample ledger: the window up to day 2 and the window from
    day 3. *)
Lemma consecutive_windows_witness :
  (exists m1,
      get_cashflows_by_asset_account (RE := literal_engine) (BC := plain_ledger)
        Sample.ledger Sample.accounts None (Some 2) "USD" = Ok m1) /\
  exists m2 rest,
    get_cashflows_by_asset_account (RE := literal_engine) (BC := plain_ledger)
      Sample.ledger Sample.accounts (Some 3) (Some 10) "USD" = Ok m2 /\
    Dict.lookup "Assets:Bank" m2
    = Some (starting_cashflow 3 (0 + (-50 # 1))%Q :: rest).
Proof.
  destruct (get_cashflows_by_asset_account
              (RE := literal_engine) (BC := plain_ledger)
              Sample.ledger Sample.accounts None (Some 2) "USD")
    as [m1|err] eqn:E1; [|vm_compute in E1; discriminate].
  split; [exists m1; reflexivity|].
  destruct (consecutive_windows
              (RE := literal_engine) (BC := plain_ledger)
              Sample.ledger Sample.accounts None (Some 10) 2 "USD" m1 _
              E1 sample_extraction) as (values & Hv & Hall).
  vm_compute in Hv. injection Hv as <-.
  destruct (Hall "Assets:Bank") as [_ [rest Hrest]].
  eexists. exists rest. split; [exact sample_extraction|]. exact Hrest.
Defined.
